(** * Pizza validator: the zod schema, [validatePizza] and the command line

    A shallow embedding of [src/validation.ts] and [src/cli.ts].

    The program is a zod schema and two functions around it.  The schema
    combinators it calls ([z.object], [z.number().positive], [z.enum],
    [z.boolean], [optional], [default], [z.array], [z.string], [refine])
    are modelled by a small interpreter, [Zod.parse], which threads the
    issues and the aborted status as zod does, and [PizzaSchema] is written
    with the same combinators, field by field, as in the source.  On the
    values of the model zod 3 and zod 4 differ only in the wording of the
    stock message for a value of the wrong type; nothing in the sources
    pins the version, so that wording is a parameter.

    The program takes from outside the repository
    [String.prototype.toLowerCase] and that wording, which make the class
    [Platform], and [readFileSync], [JSON.parse] and the printing of numbers
    by [JSON.stringify], which are the host of a run of the CLI.  Every
    theorem holds for every platform and every host; two concrete platforms
    and one host evaluate the examples.

    Values are JSON data and [undefined].  A number is a finite one,
    embedded in [Q], an infinity or [NaN]: the program only compares numbers
    with zero and hands them on.  [JSON.parse] yields an infinity on a
    literal out of range, and zod 3 and zod 4 differ on the infinities too:
    the [z.number()] of zod 3 takes them, that of zod 4 does not.  This is
    the second parameter of [Platform]. *)

From Stdlib Require Import List String Ascii Bool Arith ZArith QArith Lia.
From Stdlib Require Import DecimalString Permutation.
Import ListNotations.

Set Warnings "-register-all".
Close Scope Q_scope.
Local Open Scope string_scope.
Local Open Scope list_scope.

(** ** JavaScript values and completions *)

Module Js.

(** A number: a finite one, an infinity ([Infinite true] is [Infinity],
    [Infinite false] is [-Infinity]) or [NaN].  A rational stands for the
    finite number it denotes. *)
Inductive number : Type :=
| Finite (q : Q)
| Infinite (plus : bool)
| NaN.

Coercion Finite : Q >-> number.
Bind Scope Q_scope with number.

(** [x <= bound]: false on [NaN]. *)
Definition number_le (x : number) (bound : Q) : bool :=
  match x with
  | Finite q => Qle_bool q bound
  | Infinite plus => negb plus
  | NaN => false
  end.

(** [x > 0], as a proposition. *)
Definition greater_than_zero (x : number) : Prop :=
  match x with
  | Finite q => (0 < q)%Q
  | Infinite plus => plus = true
  | NaN => False
  end.

(** The values an [unknown] input ranges over here: JSON data, the numbers
    JSON cannot write, and [undefined].  An object is its list of own
    properties in insertion order; reading a property finds the first entry
    with that key. *)
Inductive value : Type :=
| VUndefined
| VNull
| VBoolean (b : bool)
| VNumber (n : number)
| VString (s : string)
| VArray (items : list value)
| VObject (props : list (string * value)).

(** What a [throw] carries, as far as [catch] in the CLI inspects it:
    whether it is an [Error], whether it is a [SyntaxError], its [code]
    property if it has one, and its [message]; for anything else, the
    text [String(error)] yields. *)
Inductive error_class : Type := PlainError | SyntaxError | TypeError.

Inductive thrown : Type :=
| ErrorObject (cls : error_class) (code : option string) (message : string)
| NonError (text : string).

(** A call either returns or throws. *)
Inductive completion (A : Type) : Type :=
| Return (a : A)
| Throw (e : thrown).
Arguments Return {A} a.
Arguments Throw {A} e.

Definition bind {A B} (c : completion A) (k : A -> completion B) : completion B :=
  match c with
  | Return a => k a
  | Throw e => Throw e
  end.

(** [typeof x], with zod's refinement of ["object"] into null, array and
    object, and of ["number"] into nan and number. *)
Definition parsedType (v : value) : string :=
  match v with
  | VUndefined => "undefined"
  | VNull => "null"
  | VBoolean _ => "boolean"
  | VNumber NaN => "nan"
  | VNumber _ => "number"
  | VString _ => "string"
  | VArray _ => "array"
  | VObject _ => "object"
  end.

(** [key in obj] and [obj[key]] on the property list. *)
Fixpoint has_key (props : list (string * value)) (key : string) : bool :=
  match props with
  | [] => false
  | (k, _) :: rest => if String.eqb k key then true else has_key rest key
  end.

Fixpoint get (props : list (string * value)) (key : string) : value :=
  match props with
  | [] => VUndefined
  | (k, v) :: rest => if String.eqb k key then v else get rest key
  end.

(** The quotation mark, as a one-character string. *)
Definition dquote : string := String (ascii_of_nat 34) EmptyString.

Definition newline : string := String (ascii_of_nat 10) EmptyString.

(** [String(i)] for an array index. *)
Definition index_text (i : nat) : string :=
  NilEmpty.string_of_uint (Nat.to_uint i).

(** [Array.prototype.join] on strings. *)
Definition join (sep : string) (parts : list string) : string :=
  String.concat sep parts.

(** [Array.prototype.includes] on strings. *)
Definition includes (xs : list string) (x : string) : bool :=
  existsb (String.eqb x) xs.

(** [Array.prototype.some]: stops at the first element the callback
    accepts; a throwing callback ends the loop. *)
Fixpoint some {A} (f : A -> completion bool) (xs : list A) : completion bool :=
  match xs with
  | [] => Return false
  | x :: rest =>
      bind (f x) (fun hit => if hit then Return true else some f rest)
  end.

(** [text.includes(part)] on strings. *)
Fixpoint contains (text part : string) : bool :=
  if String.prefix part text then true
  else match text with
       | EmptyString => false
       | String _ rest => contains rest part
       end.

(** Lower-casing of the ASCII letters, the part of
    [String.prototype.toLowerCase] that is fixed here. *)
Definition lower_ascii (c : ascii) : ascii :=
  let n := nat_of_ascii c in
  if andb (65 <=? n)%nat (n <=? 90)%nat then ascii_of_nat (n + 32) else c.

Fixpoint ascii_lower (s : string) : string :=
  match s with
  | EmptyString => EmptyString
  | String c rest => String (lower_ascii c) (ascii_lower rest)
  end.

Fixpoint is_ascii (s : string) : bool :=
  match s with
  | EmptyString => true
  | String c rest => andb (nat_of_ascii c <? 128)%nat (is_ascii rest)
  end.

End Js.

Export Js.

Declare Scope js_scope.
Delimit Scope js_scope with js.
Notation "x <- c ;; k" := (Js.bind c (fun x => k))
  (at level 61, c at next level, right associativity) : js_scope.
Local Open Scope js_scope.

(** ** The platform *)

(** What the validator takes from outside the repository: the engine's
    [String.prototype.toLowerCase], which is Unicode lower-casing and is
    known here on ASCII strings only; the wording of zod's stock message
    for an [invalid_type] issue, given the name of the expected type and
    the input; and whether zod's [z.number()] takes the infinities (zod 3)
    or finite numbers only (zod 4). *)
Class Platform : Type := {
  toLowerCase : string -> string;
  toLowerCase_ascii :
    forall s, is_ascii s = true -> toLowerCase s = ascii_lower s;
  invalid_type_message : string -> value -> string;
  number_allows_infinity : bool
}.

(** The stock message of zod 3 and of zod 4 (English locale). *)
Definition zod3_invalid_type (expected : string) (input : value) : string :=
  match input with
  | VUndefined => "Required"
  | _ => String.concat "" ["Expected "; expected; ", received "; parsedType input]
  end.

Definition zod4_invalid_type (expected : string) (input : value) : string :=
  String.concat ""
    [ "Invalid input: expected "; expected; ", received ";
      match input with
      | VNumber NaN => "NaN"
      | _ => parsedType input
      end ].

(** Two platforms for evaluating examples: strings are ASCII, messages and
    numbers are those of zod 3, respectively zod 4. *)
Definition ascii_zod3 : Platform :=
  {| toLowerCase := ascii_lower;
     toLowerCase_ascii := fun s _ => eq_refl;
     invalid_type_message := zod3_invalid_type;
     number_allows_infinity := true |}.

Definition ascii_zod4 : Platform :=
  {| toLowerCase := ascii_lower;
     toLowerCase_ascii := fun s _ => eq_refl;
     invalid_type_message := zod4_invalid_type;
     number_allows_infinity := false |}.

(** ** zod: schemas and their parser *)

Module Zod.

(** [issue.path] holds property names and array indices. *)
Inductive segment : Type :=
| Key (name : string)
| Index (i : nat).

Record issue : Type := Issue {
  path : list segment;
  message : string
}.

(** A check attached to [z.number()]: [.positive(message)] is
    [cmp_gt 0 message]. *)
Inductive number_check : Type :=
| cmp_gt (bound : Q) (message : string).

Definition positive (message : string) : number_check := cmp_gt 0 message.

(** The schema constructors the program uses.  [z_enum values message] is
    [z.enum(values, { message })]; [z_refine inner check message] is
    [inner.refine(check, { message })], whose callback is JavaScript code
    and may throw. *)
Inductive schema : Type :=
| z_number (checks : list number_check)
| z_string
| z_boolean
| z_enum (values : list string) (message : string)
| z_array (element : schema)
| z_optional (inner : schema)
| z_default (inner : schema) (defaultValue : value)
| z_refine (inner : schema) (check : value -> completion bool) (message : string)
| z_object (shape : list (string * schema)).

(** What parsing one value yields: [INVALID] when parsing aborted (a value
    of the wrong type), otherwise the output value with the issues raised
    on the way (none: valid; some: dirty). *)
Inductive parsed : Type :=
| INVALID (issues : list issue)
| PARSED (issues : list issue) (data : value).

Definition issues_of (r : parsed) : list issue :=
  match r with
  | INVALID issues => issues
  | PARSED issues _ => issues
  end.

Definition is_parsed (r : parsed) : bool :=
  match r with
  | PARSED _ _ => true
  | INVALID _ => false
  end.

Definition data_of (r : parsed) : value :=
  match r with
  | PARSED _ data => data
  | INVALID _ => VUndefined
  end.

(** Issues of a child are reported under the child's key or index. *)
Definition prefixIssues (seg : segment) (issues : list issue) : list issue :=
  map (fun iss => Issue (seg :: path iss) (message iss)) issues.

(** The issues of the fields of an object, each under its key. *)
Definition all_issues (results : list (string * parsed)) : list issue :=
  flat_map (fun kr => prefixIssues (Key (fst kr)) (issues_of (snd kr))) results.

Definition run_check (n : number) (c : number_check) : list issue :=
  match c with
  | cmp_gt bound message =>
      if number_le n bound then [Issue [] message] else []
  end.

(** Array elements are parsed left to right; one aborted element aborts
    the array, after all elements have reported. *)
Fixpoint mergeArray (i : nat) (results : list parsed) : parsed :=
  match results with
  | [] => PARSED [] (VArray [])
  | r :: rest =>
      let here := prefixIssues (Index i) (issues_of r) in
      match r, mergeArray (S i) rest with
      | PARSED _ v, PARSED issues (VArray vs) =>
          PARSED (here ++ issues) (VArray (v :: vs))
      | _, tail => INVALID (here ++ issues_of tail)
      end
  end.

(** Object fields are merged in shape order.  A field whose output is
    [undefined] is set only if the input has the key; keys outside the
    shape are never copied. *)
Fixpoint mergeObject (input : list (string * value))
         (results : list (string * parsed)) : parsed :=
  match results with
  | [] => PARSED [] (VObject [])
  | (key, r) :: rest =>
      let here := prefixIssues (Key key) (issues_of r) in
      match r, mergeObject input rest with
      | PARSED _ v, PARSED issues (VObject fields) =>
          let fields' :=
            match v with
            | VUndefined =>
                if has_key input key then (key, VUndefined) :: fields else fields
            | _ => (key, v) :: fields
            end in
          PARSED (here ++ issues) (VObject fields')
      | _, tail => INVALID (here ++ issues_of tail)
      end
  end.

Section Parse.
Context {platform : Platform}.

Definition invalid_type (expected : string) (input : value) : parsed :=
  INVALID [Issue [] (invalid_type_message expected input)].

(** The type check of [z.number()]: never [NaN]; the infinities where the
    platform's zod takes them. *)
Definition is_number (n : number) : bool :=
  match n with
  | Finite _ => true
  | Infinite _ => number_allows_infinity
  | NaN => false
  end.

Fixpoint mapM {A B} (f : A -> completion B) (xs : list A) : completion (list B) :=
  match xs with
  | [] => Return []
  | x :: rest => y <- f x ;; ys <- mapM f rest ;; Return (y :: ys)
  end.

Fixpoint parse (s : schema) (input : value) : completion parsed :=
  match s with
  | z_number checks =>
      match input with
      | VNumber n =>
          if is_number n
          then Return (PARSED (flat_map (run_check n) checks) input)
          else Return (invalid_type "number" input)
      | _ => Return (invalid_type "number" input)
      end
  | z_string =>
      match input with
      | VString _ => Return (PARSED [] input)
      | _ => Return (invalid_type "string" input)
      end
  | z_boolean =>
      match input with
      | VBoolean _ => Return (PARSED [] input)
      | _ => Return (invalid_type "boolean" input)
      end
  | z_enum values message =>
      match input with
      | VString s =>
          if includes values s then Return (PARSED [] input)
          else Return (INVALID [Issue [] message])
      | _ => Return (INVALID [Issue [] message])
      end
  | z_array element =>
      match input with
      | VArray items =>
          results <- mapM (parse element) items ;;
          Return (mergeArray 0 results)
      | _ => Return (invalid_type "array" input)
      end
  | z_optional inner =>
      match input with
      | VUndefined => Return (PARSED [] VUndefined)
      | _ => parse inner input
      end
  | z_default inner defaultValue =>
      match input with
      | VUndefined => Return (PARSED [] defaultValue)
      | _ => parse inner input
      end
  | z_refine inner check message =>
      r <- parse inner input ;;
      match r with
      | INVALID issues => Return (INVALID issues)
      | PARSED issues data =>
          ok <- check data ;;
          Return (PARSED (issues ++ if ok then [] else [Issue [] message]) data)
      end
  | z_object shape =>
      match input with
      | VObject props =>
          results <-
            (fix fields (shape : list (string * schema))
               : completion (list (string * parsed)) :=
               match shape with
               | [] => Return []
               | (key, field) :: rest =>
                   r <- parse field (get props key) ;;
                   rs <- fields rest ;;
                   Return ((key, r) :: rs)
               end) shape ;;
          Return (mergeObject props results)
      | _ => Return (invalid_type "object" input)
      end
  end.

(** [schema.safeParse(input)]: [success] with the data when no issue was
    raised, otherwise the issues in the order they were raised. *)
Inductive SafeParseResult : Type :=
| success (data : value)
| failure (issues : list issue).

Definition safeParse (s : schema) (input : value) : completion SafeParseResult :=
  r <- parse s input ;;
  match r with
  | PARSED [] data => Return (success data)
  | PARSED issues _ => Return (failure issues)
  | INVALID issues => Return (failure issues)
  end.

End Parse.

End Zod.

Export Zod.

(** ** src/validation.ts *)

Module Validation.

Local Open Scope string_scope.

Definition INVALID_TOPPINGS : list string :=
  ["spinach"; "mushroom"; "chicken"; "turkey"].

Definition size_message : string := "pizza size must be a positive number".

(** [crust must be either "stuffed" or "normal"], with its quotation
    marks. *)
Definition crust_message : string :=
  "crust must be either " ++ dquote ++ "stuffed" ++ dquote
    ++ " or " ++ dquote ++ "normal" ++ dquote.

(** The template string of the refinement:
    [`the following toppings are invalid: ${INVALID_TOPPINGS.join(', ')}.`] *)
Definition toppings_message : string :=
  "the following toppings are invalid: " ++ join ", " INVALID_TOPPINGS ++ ".".

(** The result type of [validatePizza]:
    [{ isPizza: true; pizza }] or [{ isPizza: false; errors }]. *)
Inductive PizzaValidationResult : Type :=
| IsPizza (pizza : value)
| NotPizza (errors : string).

Section Validator.
Context {platform : Platform}.

(** [topping.toLowerCase()]: a method of strings only. *)
Definition call_toLowerCase (topping : value) : completion string :=
  match topping with
  | VString s => Return (toLowerCase s)
  | _ => Throw (ErrorObject TypeError None "topping.toLowerCase is not a function")
  end.

(** The callback given to [refine]. *)
Definition toppings_check (toppings : value) : completion bool :=
  match toppings with
  | VUndefined => Return true
  | VArray items =>
      hit <- some (fun topping =>
                     lowered <- call_toLowerCase topping ;;
                     Return (includes INVALID_TOPPINGS lowered)) items ;;
      Return (negb hit)
  | _ => Throw (ErrorObject TypeError None "toppings.some is not a function")
  end.

Definition PizzaSchema : schema :=
  z_object
    [ ("size", z_number [positive size_message]);
      ("crust", z_enum ["stuffed"; "normal"] crust_message);
      ("isDeepDish", z_default (z_optional z_boolean) (VBoolean false));
      ("toppings",
        z_refine (z_optional (z_array z_string)) toppings_check toppings_message) ].

Definition segment_text (seg : segment) : string :=
  match seg with
  | Key name => name
  | Index i => index_text i
  end.

(** The callback of [result.error.issues.map]. *)
Definition render_issue (err : issue) : string :=
  let path :=
    if (0 <? List.length (path err))%nat
    then join "." (map segment_text (path err)) ++ ": "
    else "" in
  path ++ message err.

Definition validatePizza (input : value) : completion PizzaValidationResult :=
  result <- safeParse PizzaSchema input ;;
  match result with
  | success data => Return (IsPizza data)
  | failure issues =>
      let errorMessages := map render_issue issues in
      Return (NotPizza (join "; " errorMessages))
  end.

End Validator.

End Validation.

Export Validation.

(** ** JSON.stringify *)

Module Json.

Local Open Scope string_scope.

Definition hex_digit (n : nat) : string :=
  String.substring n 1 "0123456789abcdef".

(** One character of [QuoteJSONString]: the quotation mark, the backslash
    and the control characters are escaped, everything else is copied. *)
Definition quote_char (c : ascii) : string :=
  let n := nat_of_ascii c in
  if (n =? 34)%nat then "\" ++ dquote
  else if (n =? 92)%nat then "\\"
  else if (n =? 8)%nat then "\b"
  else if (n =? 9)%nat then "\t"
  else if (n =? 10)%nat then "\n"
  else if (n =? 12)%nat then "\f"
  else if (n =? 13)%nat then "\r"
  else if (n <? 32)%nat then "\u00" ++ hex_digit (n / 16) ++ hex_digit (n mod 16)
  else String c EmptyString.

Fixpoint quote_chars (s : string) : string :=
  match s with
  | EmptyString => EmptyString
  | String c rest => quote_char c ++ quote_chars rest
  end.

Definition quote (s : string) : string := dquote ++ quote_chars s ++ dquote.

(** The closing of [SerializeJSONObject] and [SerializeJSONArray]: nothing
    between the brackets when there is no member, one member per line at
    the new indentation when there is a gap. *)
Definition wrap (open close gap indent stepback : string)
           (partial : list string) : string :=
  match partial with
  | [] => open ++ close
  | _ =>
      if (String.length gap =? 0)%nat
      then open ++ join "," partial ++ close
      else open ++ newline ++ indent
             ++ join ("," ++ newline ++ indent) partial
             ++ newline ++ stepback ++ close
  end.

Section Stringify.
(** [Number::toString], the engine's shortest decimal rendering. *)
Variable Number_toString : Q -> string.

(** A number in JSON: a finite one is printed, the others are [null]. *)
Definition number_text (n : number) : string :=
  match n with
  | Finite q => Number_toString q
  | _ => "null"
  end.

(** [SerializeJSONProperty]: [None] is the [undefined] result, which
    drops a property of an object and prints as [null] in an array. *)
Fixpoint serialize (gap indent : string) (v : value) : option string :=
  match v with
  | VUndefined => None
  | VNull => Some "null"
  | VBoolean b => Some (if b then "true" else "false")
  | VNumber n => Some (number_text n)
  | VString s => Some (quote s)
  | VArray items =>
      let stepback := indent in
      let indent := indent ++ gap in
      let partial :=
        (fix elements (items : list value) : list string :=
           match items with
           | [] => nil
           | item :: rest =>
               match serialize gap indent item with
               | Some text => text
               | None => "null"
               end :: elements rest
           end) items in
      Some (wrap "[" "]" gap indent stepback partial)
  | VObject props =>
      let stepback := indent in
      let indent := indent ++ gap in
      let partial :=
        (fix members (props : list (string * value)) : list string :=
           match props with
           | [] => nil
           | (key, item) :: rest =>
               match serialize gap indent item with
               | Some text =>
                   (quote key ++ ":"
                      ++ (if (String.length gap =? 0)%nat then "" else " ")
                      ++ text) :: members rest
               | None => members rest
               end
           end) props in
      Some (wrap "{" "}" gap indent stepback partial)
  end.

Fixpoint spaces (n : nat) : string :=
  match n with
  | O => EmptyString
  | S m => String " " (spaces m)
  end.

(** [JSON.stringify(v, null, space)] for a numeric [space]. *)
Definition JSON_stringify (v : value) (space : nat) : option string :=
  serialize (spaces (Nat.min 10 space)) "" v.

(** The layout of a pizza record printed with a gap of two spaces: the
    members one per line, indented by two spaces and separated by
    commas; the toppings, when there are any, one per line, indented
    by four. *)
Definition member_text (key text : string) : string :=
  quote key ++ ": " ++ text.

Definition toppings_text (ts : list string) : string :=
  match ts with
  | [] => "[]"
  | _ =>
      "[" ++ newline ++ "    "
        ++ join ("," ++ newline ++ "    ") (map quote ts)
        ++ newline ++ "  ]"
  end.

Definition pizza_text (size : number) (crust : string) (isDeepDish : bool)
           (toppings : option (list string)) : string :=
  "{" ++ newline ++ "  "
    ++ join ("," ++ newline ++ "  ")
         ([ member_text "size" (number_text size);
            member_text "crust" (quote crust);
            member_text "isDeepDish" (if isDeepDish then "true" else "false") ]
            ++ match toppings with
               | Some ts => [member_text "toppings" (toppings_text ts)]
               | None => []
               end)%list
    ++ newline ++ "}".

End Stringify.

End Json.

Export Json.

(** ** src/cli.ts *)

Module Cli.

Local Open Scope string_scope.

(** What [parseArgs] returned to [main]: [values.help], which is absent
    unless the flag was given, and [positionals]. *)
Record ParsedArgs : Type := {
  help : option bool;
  positionals : list string
}.

(** The lines written so far by [console.log] and by [console.error]. *)
Record Console : Type := {
  stdout : list string;
  stderr : list string
}.

(** A statement runs to its end, ends the process through
    [process.exit], or throws. *)
Inductive outcome (A : Type) : Type :=
| Done (a : A)
| Exited (code : Z)
| Raised (e : thrown).
Arguments Done {A} a.
Arguments Exited {A} code.
Arguments Raised {A} e.

Definition Proc (A : Type) : Type := Console -> outcome A * Console.

Definition ret {A} (a : A) : Proc A := fun con => (Done a, con).

Definition seq {A B} (m : Proc A) (k : A -> Proc B) : Proc B :=
  fun con =>
    match m con with
    | (Done a, con') => k a con'
    | (Exited code, con') => (Exited code, con')
    | (Raised e, con') => (Raised e, con')
    end.

Definition console_log (text : string) : Proc unit :=
  fun con => (Done tt, {| stdout := stdout con ++ [text]; stderr := stderr con |}).

Definition console_error (text : string) : Proc unit :=
  fun con => (Done tt, {| stdout := stdout con; stderr := stderr con ++ [text] |}).

Definition process_exit {A} (code : Z) : Proc A :=
  fun con => (Exited code, con).

(** A call of a function that returns or throws. *)
Definition call {A} (c : completion A) : Proc A :=
  fun con =>
    match c with
    | Return a => (Done a, con)
    | Throw e => (Raised e, con)
    end.

(** [try { body } catch (error) { handler }]: only a throw reaches the
    handler, [process.exit] does not. *)
Definition try_catch {A} (body : Proc A) (handler : thrown -> Proc A) : Proc A :=
  fun con =>
    match body con with
    | (Raised e, con') => handler e con'
    | other => other
    end.

Declare Scope proc_scope.
Delimit Scope proc_scope with proc.
Notation "x <- c ;; k" := (seq c (fun x => k))
  (at level 61, c at next level, right associativity) : proc_scope.
Notation "c ;; k" := (seq c (fun _ => k))
  (at level 61, right associativity) : proc_scope.

(** How [console.log] shows the result of [JSON.stringify]. *)
Definition shown (text : option string) : string :=
  match text with
  | Some t => t
  | None => "undefined"
  end.

Definition is_true (flag : option bool) : bool :=
  match flag with
  | Some true => true
  | _ => false
  end.

Definition code_is (code : option string) (name : string) : bool :=
  match code with
  | Some c => String.eqb c name
  | None => false
  end.

Definition is_SyntaxError (cls : error_class) : bool :=
  match cls with
  | SyntaxError => true
  | _ => false
  end.

Section Main.
Context {platform : Platform}.
(** The host of a run: [readFileSync(path, 'utf-8')] on its file system,
    and the engine's [JSON.parse] and [Number::toString]. *)
Variable readFileSync : string -> completion string.
Variable JSON_parse : string -> completion value.
Variable Number_toString : Q -> string.

Local Open Scope proc_scope.

Definition main (args : ParsedArgs) : Proc unit :=
  (if orb (is_true (help args)) (List.length (positionals args) =? 0)%nat
   then
     console_log "usage: pizza-validator <json-file>" ;;
     console_log "validates a JSON file to check if it contains a valid pizza." ;;
     console_log (newline ++ "options:") ;;
     console_log "  -h, --help    show this help message" ;;
     process_exit 0
   else ret tt) ;;
  let filePath := nth 0 (positionals args) "undefined" in
  try_catch
    (fileContent <- call (readFileSync filePath) ;;
     jsonData <- call (JSON_parse fileContent) ;;
     result <- call (validatePizza jsonData) ;;
     match result with
     | IsPizza pizza =>
         console_log "✓ Valid pizza!" ;;
         console_log (shown (JSON_stringify Number_toString pizza 2)) ;;
         process_exit 0
     | NotPizza errors =>
         console_error "✗ Invalid pizza:" ;;
         console_error errors ;;
         process_exit 1
     end)
    (fun error =>
       match error with
       | ErrorObject cls code message =>
           if code_is code "ENOENT" then
             console_error ("Error: File " ++ dquote ++ filePath ++ dquote ++ " not found.")
           else if is_SyntaxError cls then
             console_error ("Error: Invalid JSON in file " ++ dquote ++ filePath ++ dquote ++ ".") ;;
             console_error message
           else
             console_error ("Error reading file " ++ dquote ++ filePath ++ dquote ++ ":") ;;
             console_error message
       | NonError text =>
           console_error ("Unknown error: " ++ text)
       end ;;
       process_exit 1).

(** One run of the program, [main()] at the end of the file: what was
    printed and the exit code.  A run that reaches its end exits with
    0, an uncaught throw with 1. *)
Record Process : Type := {
  printed : Console;
  exitCode : Z
}.

Definition run (args : ParsedArgs) : Process :=
  match main args {| stdout := []; stderr := [] |} with
  | (Exited code, con) => {| printed := con; exitCode := code |}
  | (Done _, con) => {| printed := con; exitCode := 0 |}
  | (Raised _, con) => {| printed := con; exitCode := 1 |}
  end.

End Main.

(** The lines the [catch] block writes for an error, by its cause. *)
Definition error_report (filePath : string) (error : thrown) : list string :=
  match error with
  | ErrorObject cls code message =>
      if code_is code "ENOENT" then
        ["Error: File " ++ dquote ++ filePath ++ dquote ++ " not found."]
      else if is_SyntaxError cls then
        ["Error: Invalid JSON in file " ++ dquote ++ filePath ++ dquote ++ "."; message]
      else
        ["Error reading file " ++ dquote ++ filePath ++ dquote ++ ":"; message]
  | NonError text => ["Unknown error: " ++ text]
  end.

Definition usage : list string :=
  [ "usage: pizza-validator <json-file>";
    "validates a JSON file to check if it contains a valid pizza.";
    newline ++ "options:";
    "  -h, --help    show this help message" ].

End Cli.

Export Cli.

(** ** The rules of the validator, field by field

    The contract of [validatePizza] written as explicit checks, one function
    per field of the schema, each returning the issues of its field in the
    order they are reported.  The theorems below compare [validatePizza],
    which runs the schema through [Zod.parse], with these rules. *)

Module Rules.

Definition is_string (v : value) : bool :=
  match v with
  | VString _ => true
  | _ => false
  end.

Definition all_strings (items : list value) : bool := forallb is_string items.

Section OnPlatform.
Context {platform : Platform}.

(** A topping is forbidden when its lower-cased text is in
    [INVALID_TOPPINGS]. *)
Definition forbidden (topping : string) : bool :=
  includes INVALID_TOPPINGS (toLowerCase topping).

Definition has_forbidden (items : list value) : bool :=
  existsb (fun item =>
             match item with
             | VString s => forbidden s
             | _ => false
             end) items.

(** size: required, a number, greater than zero. *)
Definition size_rule (v : value) : list issue :=
  match v with
  | VNumber n =>
      if is_number n
      then if number_le n 0 then [Issue [] size_message] else []
      else [Issue [] (invalid_type_message "number" v)]
  | _ => [Issue [] (invalid_type_message "number" v)]
  end.

(** crust: required, one of the two names. *)
Definition crust_rule (v : value) : list issue :=
  match v with
  | VString s =>
      if orb (String.eqb s "stuffed") (String.eqb s "normal") then []
      else [Issue [] crust_message]
  | _ => [Issue [] crust_message]
  end.

(** isDeepDish: optional, a boolean when present. *)
Definition isDeepDish_rule (v : value) : list issue :=
  match v with
  | VUndefined => []
  | VBoolean _ => []
  | _ => [Issue [] (invalid_type_message "boolean" v)]
  end.

(** What [z.string()] yields on one element of [toppings]. *)
Definition string_result (v : value) : parsed :=
  match v with
  | VString _ => PARSED [] v
  | _ => invalid_type "string" v
  end.

(** The type violations of the elements of [toppings], each under its
    index, counted from [i]. *)
Fixpoint element_type_issues (i : nat) (items : list value) : list issue :=
  match items with
  | [] => []
  | VString _ :: rest => element_type_issues (S i) rest
  | item :: rest =>
      Issue [Index i] (invalid_type_message "string" item)
        :: element_type_issues (S i) rest
  end.

(** The type violations of [toppings]. *)
Definition toppings_type_issues (v : value) : list issue :=
  match v with
  | VUndefined => []
  | VArray items => element_type_issues 0 items
  | _ => [Issue [] (invalid_type_message "array" v)]
  end.

(** toppings: optional, a list of strings when present, and then none
    of them forbidden; the content is looked at only when the type is
    right. *)
Definition toppings_rule (v : value) : list issue :=
  match v with
  | VArray items =>
      if all_strings items
      then if has_forbidden items then [Issue [] toppings_message] else []
      else element_type_issues 0 items
  | _ => toppings_type_issues v
  end.

Definition under (field : string) (issues : list issue) : list issue :=
  prefixIssues (Key field) issues.

(** Whether [toppings] is present with the wrong type: not a list, or
    a list with an element that is not a string. *)
Definition ill_typed_toppings (v : value) : bool :=
  match v with
  | VUndefined => false
  | VArray items => negb (all_strings items)
  | _ => true
  end.

(** All violations of an input, in the order of the fields. *)
Definition violations (input : value) : list issue :=
  match input with
  | VObject props =>
      under "size" (size_rule (get props "size"))
        ++ under "crust" (crust_rule (get props "crust"))
        ++ under "isDeepDish" (isDeepDish_rule (get props "isDeepDish"))
        ++ under "toppings" (toppings_rule (get props "toppings"))
  | _ => [Issue [] (invalid_type_message "object" input)]
  end.

End OnPlatform.

(** Whether an issue is reported under a field of the object. *)
Definition reported_under (field : string) (iss : issue) : bool :=
  match path iss with
  | Key name :: _ => String.eqb name field
  | _ => false
  end.

(** A property of the output: present unless its value is [undefined] and
    the input did not have the key. *)
Definition entry (props : list (string * value)) (key : string) (v : value)
  : list (string * value) :=
  match v with
  | VUndefined => if has_key props key then [(key, VUndefined)] else []
  | _ => [(key, v)]
  end.

Definition default_false (v : value) : value :=
  match v with
  | VUndefined => VBoolean false
  | _ => v
  end.

(** The normalized pizza of an accepted object: its four declared fields,
    in the order of the schema, with the default of [isDeepDish] made
    explicit. *)
Definition normalize (props : list (string * value)) : value :=
  VObject (entry props "size" (get props "size")
             ++ entry props "crust" (get props "crust")
             ++ entry props "isDeepDish" (default_false (get props "isDeepDish"))
             ++ entry props "toppings" (get props "toppings")).

(** An optional field of the input: its value, or [undefined]. *)
Definition of_optional {A} (f : A -> value) (o : option A) : value :=
  match o with
  | Some a => f a
  | None => VUndefined
  end.

(** A list of strings as an array. *)
Definition strings (ts : list string) : value := VArray (map VString ts).

Definition declared_keys : list string :=
  ["size"; "crust"; "isDeepDish"; "toppings"].

(** An object without its undeclared properties. *)
Definition declared_only (props : list (string * value)) : list (string * value) :=
  filter (fun kv => includes declared_keys (fst kv)) props.

End Rules.

Export Rules.

(** ** Example inputs and an example host *)

Module Examples.

Local Open Scope string_scope.

Definition pepperoni_bacon : list (string * value) :=
  [ ("size", VNumber 12); ("crust", VString "normal");
    ("toppings", strings ["pepperoni"; "bacon"]) ].

Definition shouting_spinach : list (string * value) :=
  [ ("size", VNumber 12); ("crust", VString "normal");
    ("toppings", strings ["SPINACH"]) ].

Definition no_size : list (string * value) :=
  [ ("crust", VString "normal") ].

Definition zero_size : list (string * value) :=
  [ ("size", VNumber 0); ("crust", VString "normal") ].

Definition all_wrong : list (string * value) :=
  [ ("toppings", VArray [VNumber 123; VString "spinach"]);
    ("isDeepDish", VNull);
    ("crust", VString "thin");
    ("size", VNumber 0) ].

Definition number_among_toppings : list (string * value) :=
  [ ("size", VNumber 12); ("crust", VString "normal");
    ("toppings", VArray [VNumber 123; VString "spinach"]) ].

Definition with_extras : list (string * value) :=
  [ ("size", VNumber 12); ("price", VNumber 9); ("crust", VString "stuffed");
    ("isDeepDish", VBoolean true); ("note", VString "extra cheese") ].

Definition deep_stuffed : value :=
  VObject [ ("size", VNumber 14); ("crust", VString "stuffed");
            ("isDeepDish", VBoolean true);
            ("toppings", strings ["pepperoni"; "bacon"]) ].

Definition spinach_mushroom : value :=
  VObject [ ("size", VNumber 12); ("crust", VString "normal");
            ("toppings", strings ["spinach"; "mushroom"]) ].

(** Decimal printing, which is what the engine prints for the integers of
    the examples; a fraction is printed as numerator and denominator. *)
Definition example_Number_toString (n : Q) : string :=
  let numerator := NilEmpty.string_of_int (Z.to_int (Qnum n)) in
  match Qden n with
  | xH => numerator
  | d => numerator ++ "/" ++ NilEmpty.string_of_uint (Pos.to_uint d)
  end.

(** The text of a document of the examples: the value, printed without
    a gap. *)
Definition text_of (v : value) : string :=
  shown (JSON_stringify example_Number_toString v 0).

(** A host with three files, and a [JSON.parse] that knows the two
    documents and finds the third file cut short. *)
Definition example_readFileSync (path : string) : completion string :=
  if String.eqb path "valid-pizza.json" then Return (text_of deep_stuffed)
  else if String.eqb path "invalid-pizza.json" then Return (text_of spinach_mushroom)
  else if String.eqb path "broken.json" then Return "{"
  else Throw (ErrorObject PlainError (Some "ENOENT")
                ("ENOENT: no such file or directory, open '" ++ path ++ "'")).

Definition example_JSON_parse (text : string) : completion value :=
  if String.eqb text (text_of deep_stuffed) then Return deep_stuffed
  else if String.eqb text (text_of spinach_mushroom) then Return spinach_mushroom
  else Throw (ErrorObject SyntaxError None "Unexpected end of JSON input").

Definition file_argument (path : string) : ParsedArgs :=
  {| help := None; positionals := [path] |}.

End Examples.

Export Examples.

(** ** src/validation.ts, the earlier revision (lines 1 to 54)

    The file holds two revisions of the module.  The earlier one differs in
    the guard of the refinement, [if (!toppings) return true], and in the
    shape of the result, [{ success, data?, error? }]. *)

Module EarlierValidation.

Local Open Scope string_scope.

(** [!x]: true on [undefined], [null], [false], zero and the empty string;
    arrays and objects are truthy, the empty ones too. *)
Definition falsy (v : value) : bool :=
  match v with
  | VUndefined => true
  | VNull => true
  | VBoolean b => negb b
  | VNumber (Finite q) => Qeq_bool q 0
  | VNumber (Infinite _) => false
  | VNumber NaN => true
  | VString s => (String.length s =? 0)%nat
  | VArray _ => false
  | VObject _ => false
  end.

(** The result object: [data] and [error] are optional properties. *)
Record Result : Type := {
  success : bool;
  data : option value;
  error : option string
}.

Section Validator.
Context {platform : Platform}.

(** The callback given to [refine]. *)
Definition toppings_check (toppings : value) : completion bool :=
  if falsy toppings then Return true
  else
    match toppings with
    | VArray items =>
        hit <- some (fun topping =>
                       lowered <- call_toLowerCase topping ;;
                       Return (includes INVALID_TOPPINGS lowered)) items ;;
        Return (negb hit)
    | _ => Throw (ErrorObject TypeError None "toppings.some is not a function")
    end.

Definition PizzaSchema : schema :=
  z_object
    [ ("size", z_number [positive size_message]);
      ("crust", z_enum ["stuffed"; "normal"] crust_message);
      ("isDeepDish", z_default (z_optional z_boolean) (VBoolean false));
      ("toppings",
        z_refine (z_optional (z_array z_string)) toppings_check toppings_message) ].

Definition validatePizza (input : value) : completion Result :=
  result <- safeParse PizzaSchema input ;;
  match result with
  | Zod.success pizza =>
      Return {| success := true; data := Some pizza; error := None |}
  | Zod.failure issues =>
      let errorMessages := map render_issue issues in
      Return {| success := false; data := None;
                error := Some (join "; " errorMessages) |}
  end.

End Validator.

End EarlierValidation.

(** ** More example inputs *)

Module MoreExamples.

Local Open Scope string_scope.

(** Sizes that are numbers and are not finite: [Infinity], which
    [JSON.parse] yields on [1e400], [-Infinity] and [NaN]. *)
Definition infinite_size : list (string * value) :=
  [ ("size", VNumber (Infinite true)); ("crust", VString "normal") ].

Definition minus_infinity_size : list (string * value) :=
  [ ("size", VNumber (Infinite false)); ("crust", VString "normal") ].

Definition nan_size : list (string * value) :=
  [ ("size", VNumber NaN); ("crust", VString "normal") ].

Definition toppings_first : list (string * value) :=
  [ ("toppings", strings ["pepperoni"; "bacon"]);
    ("crust", VString "normal"); ("size", VNumber 12) ].



(** A host whose file cannot be read, and a parser that throws a value
    that is not an [Error]. *)
Definition locked_readFileSync (path : string) : completion string :=
  Throw (ErrorObject PlainError (Some "EACCES")
           ("EACCES: permission denied, open '" ++ path ++ "'")).

Definition throwing_JSON_parse (text : string) : completion value :=
  Throw (NonError "boom").

(** A host whose files all hold the document [null]. *)
Definition null_readFileSync (path : string) : completion string :=
  Return "null".

Definition null_JSON_parse (text : string) : completion value :=
  Return VNull.

Definition two_files : ParsedArgs :=
  {| help := None; positionals := ["valid-pizza.json"; "invalid-pizza.json"] |}.

Definition help_and_file : ParsedArgs :=
  {| help := Some true; positionals := ["valid-pizza.json"] |}.

End MoreExamples.

Export MoreExamples.

(** * Properties *)

(** ** Parsing, field by field *)

Section FieldParsers.
Context {platform : Platform}.

Lemma positive_iff (n : Q) : Qle_bool n 0 = false <-> (0 < n)%Q.
Proof.
  split; intro H.
  - apply Qnot_le_lt. intro Hle. apply Qle_bool_iff in Hle. congruence.
  - destruct (Qle_bool n 0) eqn:E; [|reflexivity].
    apply Qle_bool_iff in E. exfalso. exact (Qlt_not_le _ _ H E).
Qed.

Lemma parse_size (v : value) :
  parse (z_number [positive size_message]) v
  = Return (match v with
            | VNumber n =>
                if is_number n then PARSED (size_rule v) v
                else INVALID (size_rule v)
            | _ => INVALID (size_rule v)
            end).
Proof.
  destruct v; try reflexivity.
  simpl. rewrite app_nil_r. destruct (is_number n); reflexivity.
Qed.

Lemma parse_crust (v : value) :
  parse (z_enum ["stuffed"; "normal"] crust_message) v
  = Return (match crust_rule v with
            | [] => PARSED [] v
            | issues => INVALID issues
            end).
Proof.
  destruct v; try reflexivity.
  simpl. unfold includes. simpl. rewrite orb_false_r.
  destruct (String.eqb s "stuffed"), (String.eqb s "normal"); reflexivity.
Qed.

Lemma parse_isDeepDish (v : value) :
  parse (z_default (z_optional z_boolean) (VBoolean false)) v
  = Return (match isDeepDish_rule v with
            | [] => PARSED [] (default_false v)
            | issues => INVALID issues
            end).
Proof. destruct v; reflexivity. Qed.

Lemma parse_elements (items : list value) :
  mapM (parse z_string) items = Return (map string_result items).
Proof.
  induction items as [|item rest IH]; [reflexivity|].
  cbn [mapM map]. rewrite IH. destruct item; reflexivity.
Qed.

Lemma element_type_issues_nil (items : list value) (i : nat) :
  all_strings items = true -> element_type_issues i items = [].
Proof.
  revert i. induction items as [|item rest IH]; intros i H; [reflexivity|].
  simpl in H. apply andb_prop in H as [Hitem Hrest].
  destruct item; try discriminate. simpl. auto.
Qed.

Lemma mergeArray_elements (items : list value) (i : nat) :
  mergeArray i (map string_result items)
  = if all_strings items then PARSED [] (VArray items)
    else INVALID (element_type_issues i items).
Proof.
  revert i. induction items as [|item rest IH]; intros i; [reflexivity|].
  simpl map. simpl mergeArray. rewrite IH.
  destruct item; simpl;
    destruct (all_strings rest) eqn:E; simpl;
    rewrite ?(element_type_issues_nil rest (S i) E); reflexivity.
Qed.

Lemma toppings_check_strings (items : list value) :
  all_strings items = true ->
  toppings_check (VArray items) = Return (negb (has_forbidden items)).
Proof.
  intro H. unfold toppings_check.
  assert (Hsome : some (fun topping =>
                          lowered <- call_toLowerCase topping ;;
                          Return (includes INVALID_TOPPINGS lowered)) items
                  = Return (has_forbidden items)).
  { induction items as [|item rest IH]; [reflexivity|].
    simpl in H. apply andb_prop in H as [Hitem Hrest].
    destruct item; try discriminate.
    change (has_forbidden (VString s :: rest))
      with (forbidden s || has_forbidden rest)%bool.
    cbn [some call_toLowerCase bind].
    change (includes INVALID_TOPPINGS (toLowerCase s)) with (forbidden s).
    destruct (forbidden s); [reflexivity|]. apply IH, Hrest. }
  rewrite Hsome. reflexivity.
Qed.

Lemma parse_toppings (v : value) :
  parse (z_refine (z_optional (z_array z_string)) toppings_check toppings_message) v
  = Return (match v with
            | VUndefined => PARSED [] VUndefined
            | VArray items =>
                if all_strings items then PARSED (toppings_rule v) v
                else INVALID (toppings_rule v)
            | _ => INVALID (toppings_rule v)
            end).
Proof.
  destruct v; try reflexivity.
  cbn [parse]. rewrite parse_elements. cbn [bind].
  rewrite mergeArray_elements. unfold toppings_rule.
  destruct (all_strings items) eqn:E; [|reflexivity].
  rewrite (toppings_check_strings items E). cbn [bind].
  destruct (has_forbidden items); reflexivity.
Qed.

End FieldParsers.

(** ** Parsing an object *)

Section ObjectParser.
Context {platform : Platform}.

Lemma mergeObject_shape props (results : list (string * parsed)) :
  mergeObject props results
  = if forallb (fun kr => is_parsed (snd kr)) results
    then PARSED (all_issues results)
           (VObject (flat_map (fun kr => entry props (fst kr) (data_of (snd kr))) results))
    else INVALID (all_issues results).
Proof.
  induction results as [|[key r] rest IH]; [reflexivity|].
  cbn [mergeObject forallb all_issues flat_map fst snd]. rewrite IH.
  fold (all_issues rest).
  destruct r as [issues|issues data]; cbn [is_parsed andb issues_of data_of].
  - destruct (forallb _ rest); reflexivity.
  - destruct (forallb _ rest); cbn [issues_of]; [|reflexivity].
    destruct data; try reflexivity.
    cbn [entry]. destruct (has_key props key); reflexivity.
Qed.

Lemma parse_object_fields props shape (results : list (string * parsed)) :
  Forall2 (fun ks kr =>
             fst ks = fst kr /\
             parse (snd ks) (get props (fst ks)) = Return (snd kr)) shape results ->
  parse (z_object shape) (VObject props) = Return (mergeObject props results).
Proof.
  intro H. cbn [parse].
  match goal with
  | |- bind ?fields _ = _ => assert (Hfields : fields = Return results)
  end.
  { induction H as [|[key field] [key' r] shape' results' [Hkey Hparse] _ IH];
      [reflexivity|].
    cbn [fst snd] in Hkey, Hparse. subst key'.
    rewrite Hparse. cbn [bind]. rewrite IH. reflexivity. }
  rewrite Hfields. reflexivity.
Qed.

Lemma prefixIssues_nil seg issues : prefixIssues seg issues = [] -> issues = [].
Proof. destruct issues; [reflexivity|discriminate]. Qed.

Lemma element_type_issues_all_strings (items : list value) (i : nat) :
  element_type_issues i items = [] -> all_strings items = true.
Proof.
  revert i. induction items as [|item rest IH]; intros i H; [reflexivity|].
  destruct item; try discriminate. simpl. eauto.
Qed.

(** The four field results of an object. *)
Lemma parse_PizzaSchema props :
  parse PizzaSchema (VObject props)
  = Return (mergeObject props
      [ ("size", match get props "size" with
                 | VNumber n =>
                     if is_number n
                     then PARSED (size_rule (get props "size")) (get props "size")
                     else INVALID (size_rule (get props "size"))
                 | _ => INVALID (size_rule (get props "size"))
                 end);
        ("crust", match crust_rule (get props "crust") with
                  | [] => PARSED [] (get props "crust")
                  | issues => INVALID issues
                  end);
        ("isDeepDish", match isDeepDish_rule (get props "isDeepDish") with
                       | [] => PARSED [] (default_false (get props "isDeepDish"))
                       | issues => INVALID issues
                       end);
        ("toppings", match get props "toppings" with
                     | VUndefined => PARSED [] VUndefined
                     | VArray items =>
                         if all_strings items
                         then PARSED (toppings_rule (get props "toppings"))
                                (get props "toppings")
                         else INVALID (toppings_rule (get props "toppings"))
                     | _ => INVALID (toppings_rule (get props "toppings"))
                     end) ]).
Proof.
  unfold PizzaSchema. apply parse_object_fields.
  repeat constructor; cbn [fst snd].
  - apply parse_size.
  - apply parse_crust.
  - apply parse_isDeepDish.
  - apply parse_toppings.
Qed.

(** [safeParse] on an object is the rules, field by field: no violation
    and the normalized pizza, or the violations. *)
Lemma safeParse_object props :
  safeParse PizzaSchema (VObject props)
  = Return (match violations (VObject props) with
            | [] => success (normalize props)
            | issues => failure issues
            end).
Proof.
  unfold safeParse. rewrite parse_PizzaSchema. cbn [bind].
  rewrite mergeObject_shape.
  cbn [all_issues flat_map forallb fst snd violations].
  unfold under.
  remember (get props "size") as size eqn:Esize.
  remember (get props "crust") as crust eqn:Ecrust.
  remember (get props "isDeepDish") as deep eqn:Edeep.
  remember (get props "toppings") as toppings eqn:Etoppings.
  assert (Hsize : issues_of (match size with
                             | VNumber n =>
                                 if is_number n then PARSED (size_rule size) size
                                 else INVALID (size_rule size)
                             | _ => INVALID (size_rule size)
                             end) = size_rule size).
  { destruct size; try reflexivity. destruct (is_number n); reflexivity. }
  assert (Hcrust : issues_of (match crust_rule crust with
                              | [] => PARSED [] crust
                              | issues => INVALID issues
                              end) = crust_rule crust)
    by (destruct (crust_rule crust); reflexivity).
  assert (Hdeep : issues_of (match isDeepDish_rule deep with
                             | [] => PARSED [] (default_false deep)
                             | issues => INVALID issues
                             end) = isDeepDish_rule deep)
    by (destruct (isDeepDish_rule deep); reflexivity).
  assert (Htoppings : issues_of (match toppings with
                                 | VUndefined => PARSED [] VUndefined
                                 | VArray items =>
                                     if all_strings items
                                     then PARSED (toppings_rule toppings) toppings
                                     else INVALID (toppings_rule toppings)
                                 | _ => INVALID (toppings_rule toppings)
                                 end) = toppings_rule toppings).
  { destruct toppings; try reflexivity. destruct (all_strings items); reflexivity. }
  rewrite Hsize, Hcrust, Hdeep, Htoppings, app_nil_r.
  destruct (prefixIssues (Key "size") (size_rule size)
              ++ prefixIssues (Key "crust") (crust_rule crust)
              ++ prefixIssues (Key "isDeepDish") (isDeepDish_rule deep)
              ++ prefixIssues (Key "toppings") (toppings_rule toppings))
    as [|iss more] eqn:Eall.
  - apply app_eq_nil in Eall as [H1 Eall].
    apply app_eq_nil in Eall as [H2 Eall].
    apply app_eq_nil in Eall as [H3 H4].
    apply prefixIssues_nil in H1, H2, H3, H4.
    unfold normalize. rewrite <- Esize, <- Ecrust, <- Edeep, <- Etoppings.
    rewrite H2, H3.
    destruct size; try discriminate H1.
    assert (Hnumber : is_number n = true).
    { cbn [size_rule] in H1. destruct (is_number n); [reflexivity|discriminate]. }
    rewrite Hnumber.
    destruct toppings; try discriminate H4.
    + cbn [is_parsed andb data_of flat_map fst snd bind]. rewrite !app_nil_r.
      reflexivity.
    + unfold toppings_rule in H4.
      destruct (all_strings items) eqn:Estr.
      * cbn [is_parsed andb data_of flat_map fst snd bind]. rewrite !app_nil_r.
        reflexivity.
      * apply element_type_issues_all_strings in H4. congruence.
  - destruct (_ && _)%bool; reflexivity.
Qed.

Lemma validatePizza_object props :
  validatePizza (VObject props)
  = Return (match violations (VObject props) with
            | [] => IsPizza (normalize props)
            | issues => NotPizza (join "; " (map render_issue issues))
            end).
Proof.
  unfold validatePizza. rewrite safeParse_object.
  destruct (violations (VObject props)); reflexivity.
Qed.

(** An input that is not an object fails with the one message of the
    type check, which has no path. *)
Lemma validatePizza_not_object input :
  (forall props, input <> VObject props) ->
  validatePizza input = Return (NotPizza (invalid_type_message "object" input)).
Proof.
  intro H. destruct input; try reflexivity. exfalso. eapply H. reflexivity.
Qed.

Lemma validatePizza_returns input :
  exists result, validatePizza input = Return result.
Proof.
  destruct input;
    try (eexists; apply validatePizza_not_object; discriminate).
  eexists. apply validatePizza_object.
Qed.

End ObjectParser.

(** ** Accepted inputs *)

Section Acceptance.
Context {platform : Platform}.

Lemma all_strings_strings ts : all_strings (map VString ts) = true.
Proof. induction ts; [reflexivity|]. simpl. assumption. Qed.

Lemma all_strings_inv items :
  all_strings items = true -> exists ts, items = map VString ts.
Proof.
  induction items as [|item rest IH]; intro H.
  - exists []. reflexivity.
  - simpl in H. apply andb_prop in H as [Hitem Hrest].
    destruct item; try discriminate.
    destruct (IH Hrest) as [ts ->]. exists (s :: ts). reflexivity.
Qed.

Lemma has_forbidden_strings ts :
  has_forbidden (map VString ts) = existsb forbidden ts.
Proof. induction ts; [reflexivity|]. simpl. rewrite IHts. reflexivity. Qed.

Lemma no_forbidden ts :
  Forall (fun t => forbidden t = false) ts <-> existsb forbidden ts = false.
Proof.
  induction ts as [|t ts IH]; simpl.
  - split; [reflexivity|constructor].
  - rewrite orb_false_iff, <- IH. split.
    + intro H. inversion H. auto.
    + intros [H1 H2]. constructor; assumption.
Qed.

Lemma size_rule_ok v :
  size_rule v = [] <->
  exists n, v = VNumber n /\ (is_number n = true /\ greater_than_zero n).
Proof.
  split.
  - destruct v; try discriminate. cbn [size_rule].
    destruct (is_number n) eqn:En; [|discriminate].
    destruct n as [q|plus|]; cbn [number_le].
    + destruct (Qle_bool q 0) eqn:E; [discriminate|].
      intros _. exists q. repeat split. apply positive_iff, E.
    + destruct plus; [|discriminate].
      intros _. exists (Infinite true). repeat split. exact En.
    + discriminate En.
  - intros (n & -> & Hnumber & Hn). cbn [size_rule]. rewrite Hnumber.
    destruct n as [q|plus|]; cbn [number_le greater_than_zero] in *.
    + apply positive_iff in Hn. rewrite Hn. reflexivity.
    + subst plus. reflexivity.
    + contradiction.
Qed.

Lemma size_rule_finite (n : Q) : (0 < n)%Q -> size_rule (VNumber n) = [].
Proof.
  intro Hn. apply size_rule_ok. exists n. repeat split. exact Hn.
Qed.

Lemma crust_rule_ok v :
  crust_rule v = [] <-> exists c, v = VString c /\ (c = "stuffed" \/ c = "normal").
Proof.
  split.
  - destruct v; try discriminate. simpl.
    destruct (String.eqb_spec s "stuffed") as [->|_]; [eauto|].
    destruct (String.eqb_spec s "normal") as [->|_]; [eauto|discriminate].
  - intros (c & -> & [-> | ->]); reflexivity.
Qed.

Lemma isDeepDish_rule_ok v :
  isDeepDish_rule v = [] <-> exists deep, v = of_optional VBoolean deep.
Proof.
  split.
  - destruct v; try discriminate; intros _.
    + exists None. reflexivity.
    + exists (Some b). reflexivity.
  - intros ([b|] & ->); reflexivity.
Qed.

Lemma toppings_rule_ok v :
  toppings_rule v = [] <->
  exists toppings,
    v = of_optional strings toppings /\
    match toppings with
    | Some ts => Forall (fun t => forbidden t = false) ts
    | None => True
    end.
Proof.
  split.
  - destruct v; try discriminate.
    + intros _. exists None. split; [reflexivity|exact I].
    + simpl. destruct (all_strings items) eqn:E.
      * destruct (all_strings_inv _ E) as [ts ->].
        rewrite has_forbidden_strings.
        destruct (existsb forbidden ts) eqn:F; [discriminate|].
        intros _. exists (Some ts). split; [reflexivity|]. apply no_forbidden, F.
      * intro H. apply element_type_issues_all_strings in H. congruence.
  - intros ([ts|] & -> & H); [|reflexivity].
    unfold strings, of_optional, toppings_rule.
    rewrite all_strings_strings, has_forbidden_strings.
    apply no_forbidden in H. rewrite H. reflexivity.
Qed.

Lemma violations_nil props :
  violations (VObject props) = [] <->
  size_rule (get props "size") = [] /\
  crust_rule (get props "crust") = [] /\
  isDeepDish_rule (get props "isDeepDish") = [] /\
  toppings_rule (get props "toppings") = [].
Proof.
  unfold violations, under. split.
  - intro H.
    apply app_eq_nil in H as [H1 H].
    apply app_eq_nil in H as [H2 H].
    apply app_eq_nil in H as [H3 H4].
    apply prefixIssues_nil in H1, H2, H3, H4. auto.
  - intros (-> & -> & -> & ->). reflexivity.
Qed.

(** An object with valid fields violates no rule, and its normalized
    pizza is its fields with the default made explicit. *)
Lemma valid_fields props n crust deep toppings :
  get props "size" = VNumber n -> is_number n = true /\ greater_than_zero n ->
  get props "crust" = VString crust -> crust = "stuffed" \/ crust = "normal" ->
  get props "isDeepDish" = of_optional VBoolean deep ->
  get props "toppings" = of_optional strings toppings ->
  match toppings with
  | Some ts => Forall (fun t => forbidden t = false) ts
  | None => True
  end ->
  violations (VObject props) = []
  /\ normalize props
     = VObject
         ([ ("size", VNumber n);
            ("crust", VString crust);
            ("isDeepDish", VBoolean match deep with Some b => b | None => false end) ]
          ++ match toppings with
             | Some ts => [("toppings", strings ts)]
             | None =>
                 if has_key props "toppings" then [("toppings", VUndefined)] else []
             end).
Proof.
  intros Hsize Hn Hcrust Hc Hdeep Htoppings Hts. split.
  - apply violations_nil. repeat split.
    + apply size_rule_ok. eauto.
    + apply crust_rule_ok. eauto.
    + apply isDeepDish_rule_ok. eauto.
    + apply toppings_rule_ok. eauto.
  - unfold normalize. rewrite Hsize, Hcrust, Hdeep, Htoppings.
    destruct deep as [b|], toppings as [ts|]; reflexivity.
Qed.

Lemma accepted_inv props :
  violations (VObject props) = [] ->
  exists n crust deep toppings,
    get props "size" = VNumber n /\ (is_number n = true /\ greater_than_zero n) /\
    get props "crust" = VString crust /\ (crust = "stuffed" \/ crust = "normal") /\
    get props "isDeepDish" = of_optional VBoolean deep /\
    get props "toppings" = of_optional strings toppings /\
    match toppings with
    | Some ts => Forall (fun t => forbidden t = false) ts
    | None => True
    end.
Proof.
  intro H. apply violations_nil in H as (H1 & H2 & H3 & H4).
  apply size_rule_ok in H1 as (n & Hsize & Hn).
  apply crust_rule_ok in H2 as (crust & Hcrust & Hc).
  apply isDeepDish_rule_ok in H3 as (deep & Hdeep).
  apply toppings_rule_ok in H4 as (toppings & Htoppings & Hts).
  exists n, crust, deep, toppings. auto 10.
Qed.

(** Claim C1, as the code has it: an object whose size is a finite number
    greater than zero, whose crust is "stuffed" or "normal", whose
    isDeepDish is absent or a boolean and whose toppings is absent or a
    list of strings none of which is forbidden, is accepted; the pizza
    returned has the size, the crust and the toppings of the input, the
    toppings in their order, and isDeepDish is the boolean of the input, or
    false when the input had none. *)
Theorem valid_pizza_accepted props (n : Q) crust deep toppings :
  get props "size" = VNumber n -> (0 < n)%Q ->
  get props "crust" = VString crust -> crust = "stuffed" \/ crust = "normal" ->
  get props "isDeepDish" = of_optional VBoolean deep ->
  get props "toppings" = of_optional strings toppings ->
  match toppings with
  | Some ts => Forall (fun t => forbidden t = false) ts
  | None => True
  end ->
  validatePizza (VObject props)
  = Return (IsPizza (VObject
      ([ ("size", VNumber n);
         ("crust", VString crust);
         ("isDeepDish", VBoolean match deep with Some b => b | None => false end) ]
       ++ match toppings with
          | Some ts => [("toppings", strings ts)]
          | None =>
              if has_key props "toppings" then [("toppings", VUndefined)] else []
          end))).
Proof.
  intros Hsize Hn Hcrust Hc Hdeep Htoppings Hts.
  destruct (valid_fields props n crust deep toppings) as [Hnone Hpizza];
    try assumption.
  { split; [reflexivity|exact Hn]. }
  rewrite validatePizza_object, Hnone, Hpizza. reflexivity.
Qed.

(** Claim C6: [validatePizza] returns a result on every input, an object
    or not; no input makes it throw.  The function reads its argument and
    the constant list of forbidden toppings only, so its result is
    determined by the input. *)
Theorem validatePizza_never_throws input :
  exists result, validatePizza input = Return result.
Proof.
  destruct input as [| | b | n | s | items | props].
  7: { rewrite validatePizza_object. eexists. reflexivity. }
  all: rewrite validatePizza_not_object by discriminate; eexists; reflexivity.
Qed.

(** Claim C7: validating the pizza returned by a successful validation
    succeeds and returns the same pizza. *)
Theorem revalidation_is_identity input pizza :
  validatePizza input = Return (IsPizza pizza) ->
  validatePizza pizza = Return (IsPizza pizza).
Proof.
  intro H.
  destruct input;
    try (rewrite validatePizza_not_object in H by discriminate; discriminate).
  rewrite validatePizza_object in H.
  destruct (violations (VObject props)) eqn:E; [|discriminate].
  injection H as <-.
  destruct (accepted_inv props E)
    as (n & crust & deep & toppings & Hsize & Hn & Hcrust & Hc & Hdeep & Htoppings & Hts).
  unfold normalize. rewrite Hsize, Hcrust, Hdeep, Htoppings.
  assert (Hdefault : exists b, default_false (of_optional VBoolean deep) = VBoolean b)
    by (destruct deep; eexists; reflexivity).
  destruct Hdefault as [b ->]. clear Hdeep.
  destruct toppings as [ts|]; cbn [of_optional entry app];
    try destruct (has_key props "toppings");
    rewrite validatePizza_object;
    match goal with
    | |- context [violations (VObject ?out)] =>
        first
          [ destruct (valid_fields out n crust (Some b) (Some ts)) as [Hnone Hpizza];
            [reflexivity|assumption|reflexivity|assumption|reflexivity|reflexivity
            |assumption|]
          | destruct (valid_fields out n crust (Some b) None) as [Hnone Hpizza];
            [reflexivity|assumption|reflexivity|assumption|reflexivity|reflexivity
            |exact I|] ]
    end;
    rewrite Hnone, Hpizza; reflexivity.
Qed.

End Acceptance.

(** ** Rejected inputs *)

Section Rejection.
Context {platform : Platform}.

Lemma includes_In xs x : includes xs x = true <-> In x xs.
Proof.
  unfold includes. rewrite existsb_exists. split.
  - intros (y & Hy & E). apply String.eqb_eq in E. subst. assumption.
  - intro H. exists x. split; [assumption|apply String.eqb_refl].
Qed.

Lemma lower_ascii_bound c :
  (nat_of_ascii (lower_ascii c) <? 128)%nat = true -> (nat_of_ascii c <? 128)%nat = true.
Proof.
  unfold lower_ascii.
  destruct (Nat.leb_spec 65 (nat_of_ascii c)); cbn [andb]; [|trivial].
  destruct (Nat.leb_spec (nat_of_ascii c) 90); [|trivial].
  intros _. apply Nat.ltb_lt. lia.
Qed.

Lemma is_ascii_lower t : is_ascii (ascii_lower t) = true -> is_ascii t = true.
Proof.
  induction t as [|c t IH]; [reflexivity|].
  cbn [ascii_lower is_ascii]. intro H. apply andb_prop in H as [Hc Ht].
  rewrite (lower_ascii_bound c Hc), (IH Ht). reflexivity.
Qed.

(** A casing variant of a forbidden topping is forbidden on every
    platform. *)
Lemma casing_variant_forbidden t :
  In (ascii_lower t) INVALID_TOPPINGS -> forbidden t = true.
Proof.
  intro H. unfold forbidden. apply includes_In.
  rewrite toLowerCase_ascii; [assumption|].
  apply is_ascii_lower.
  destruct H as [<-|[<-|[<-|[<-|[]]]]]; reflexivity.
Qed.

Lemma some_forbidden ts :
  Exists (fun t => In (toLowerCase t) INVALID_TOPPINGS
                   \/ In (ascii_lower t) INVALID_TOPPINGS) ts ->
  existsb forbidden ts = true.
Proof.
  intro H. apply existsb_exists. apply Exists_exists in H as (t & Ht & H).
  exists t. split; [assumption|].
  destruct H as [H|H].
  - apply includes_In, H.
  - apply casing_variant_forbidden, H.
Qed.

(** Claim C2: when the other fields are valid and the list of toppings
    holds a string whose lower-cased text is spinach, mushroom, chicken or
    turkey (in particular any casing variant of one of them), validation
    fails with one issue, under the path toppings, whose message lists the
    four forbidden toppings whatever the offending entries are. *)
Theorem forbidden_topping_rejected props (n : Q) crust deep ts :
  get props "size" = VNumber n -> (0 < n)%Q ->
  get props "crust" = VString crust -> crust = "stuffed" \/ crust = "normal" ->
  get props "isDeepDish" = of_optional VBoolean deep ->
  get props "toppings" = strings ts ->
  Exists (fun t => In (toLowerCase t) INVALID_TOPPINGS
                   \/ In (ascii_lower t) INVALID_TOPPINGS) ts ->
  safeParse PizzaSchema (VObject props)
  = Return (failure
      [Issue [Key "toppings"]
         "the following toppings are invalid: spinach, mushroom, chicken, turkey."])
  /\ validatePizza (VObject props)
     = Return (NotPizza
         "toppings: the following toppings are invalid: spinach, mushroom, chicken, turkey.").
Proof.
  intros Hsize Hn Hcrust Hc Hdeep Htoppings Hts.
  assert (Hv : violations (VObject props)
               = [Issue [Key "toppings"] toppings_message]).
  { unfold violations.
    rewrite Hsize, (size_rule_finite n Hn).
    rewrite (proj2 (crust_rule_ok _)) by eauto.
    rewrite (proj2 (isDeepDish_rule_ok _)) by eauto.
    rewrite Htoppings. unfold strings, toppings_rule.
    rewrite all_strings_strings, has_forbidden_strings, (some_forbidden ts Hts).
    reflexivity. }
  split.
  - rewrite safeParse_object, Hv. reflexivity.
  - rewrite validatePizza_object, Hv. reflexivity.
Qed.

Lemma violations_size_first props :
  violations (VObject props)
  = under "size" (size_rule (get props "size"))
      ++ (under "crust" (crust_rule (get props "crust"))
            ++ under "isDeepDish" (isDeepDish_rule (get props "isDeepDish"))
            ++ under "toppings" (toppings_rule (get props "toppings"))).
Proof. reflexivity. Qed.

(** Claim C3, as the code has it: on an object whose size is a finite
    number not greater than zero, validation fails and the first message of
    the joined string is [size: pizza size must be a positive number].  On
    an object whose size is missing, is not a number, or is [NaN],
    validation fails and the first message is [size: ] followed by the
    stock message of zod for a value of the wrong type, not the text above.
    An infinite size is a value of the wrong type where zod's number type
    is the finite numbers (zod 4), with the stock message; where it takes
    the infinities (zod 3), [-Infinity] gets the message of the first
    case. *)
Theorem size_violation_reported props :
  (forall n : Q, get props "size" = VNumber n -> (n <= 0)%Q ->
     exists others,
       validatePizza (VObject props)
       = Return (NotPizza
           (join "; " ("size: pizza size must be a positive number" :: others))))
  /\ ((forall n : number, get props "size" <> VNumber n) ->
      exists others,
        validatePizza (VObject props)
        = Return (NotPizza
            (join "; "
               (("size: " ++ invalid_type_message "number" (get props "size"))%string
                  :: others))))
  /\ (get props "size" = VNumber NaN ->
      exists others,
        validatePizza (VObject props)
        = Return (NotPizza
            (join "; "
               (("size: " ++ invalid_type_message "number" (VNumber NaN))%string
                  :: others))))
  /\ (forall plus, get props "size" = VNumber (Infinite plus) ->
      number_allows_infinity = false ->
      exists others,
        validatePizza (VObject props)
        = Return (NotPizza
            (join "; "
               (("size: "
                   ++ invalid_type_message "number" (VNumber (Infinite plus)))%string
                  :: others))))
  /\ (get props "size" = VNumber (Infinite false) ->
      number_allows_infinity = true ->
      exists others,
        validatePizza (VObject props)
        = Return (NotPizza
            (join "; " ("size: pizza size must be a positive number" :: others)))).
Proof.
  split; [|split; [|split; [|split]]].
  - intros n Hsize Hn.
    rewrite validatePizza_object, violations_size_first, Hsize.
    apply Qle_bool_iff in Hn. cbn [size_rule is_number number_le]. rewrite Hn.
    eexists. reflexivity.
  - intro Hsize.
    rewrite validatePizza_object, violations_size_first.
    destruct (get props "size") eqn:E;
      try (eexists; reflexivity).
    exfalso. eapply Hsize. reflexivity.
  - intro Hsize.
    rewrite validatePizza_object, violations_size_first, Hsize.
    eexists. reflexivity.
  - intros plus Hsize Hflag.
    rewrite validatePizza_object, violations_size_first, Hsize.
    cbn [size_rule is_number]. rewrite Hflag.
    eexists. reflexivity.
  - intros Hsize Hflag.
    rewrite validatePizza_object, violations_size_first, Hsize.
    cbn [size_rule is_number number_le negb]. rewrite Hflag.
    eexists. reflexivity.
Qed.

(** Claim C4: when validation fails, the error string is the messages of
    all violations, one per issue, joined with [; ]: for an object, the
    violations of size, then of crust, then of isDeepDish, then of
    toppings, whatever the order of the properties in the input; for an
    input that is not an object, the one message of the type check. *)
Theorem errors_joined_in_field_order input errors :
  validatePizza input = Return (NotPizza errors) ->
  exists issues,
    issues <> []
    /\ errors = join "; " (map render_issue issues)
    /\ issues
       = match input with
         | VObject props =>
             under "size" (size_rule (get props "size"))
               ++ under "crust" (crust_rule (get props "crust"))
               ++ under "isDeepDish" (isDeepDish_rule (get props "isDeepDish"))
               ++ under "toppings" (toppings_rule (get props "toppings"))
         | _ => [Issue [] (invalid_type_message "object" input)]
         end.
Proof.
  intro H. exists (violations input).
  destruct input;
    try (rewrite validatePizza_not_object in H by discriminate;
         injection H as <-;
         split; [discriminate|split; reflexivity]).
  rewrite validatePizza_object in H.
  destruct (violations (VObject props)) eqn:E; [discriminate|].
  injection H as <-.
  split; [discriminate|split; [reflexivity|symmetry; exact E]].
Qed.

End Rejection.

(** ** Ill-typed toppings *)

Lemma append_assoc (a b c : string) :
  ((a ++ b) ++ c = a ++ (b ++ c))%string.
Proof. induction a as [|ch a IH]; [reflexivity|]. simpl. rewrite IH. reflexivity. Qed.

Section IllTypedToppings.
Context {platform : Platform}.

Lemma render_element_issue i text :
  render_issue (Issue [Key "toppings"; Index i] text)
  = ("toppings." ++ index_text i ++ ": " ++ text)%string.
Proof.
  unfold render_issue. cbn [path message List.length Nat.ltb Nat.leb map segment_text join
                             String.concat].
  rewrite !append_assoc. reflexivity.
Qed.

Lemma filter_under_other name field issues :
  String.eqb name field = false ->
  filter (reported_under field) (under name issues) = [].
Proof.
  intro H. induction issues as [|iss rest IH]; [reflexivity|].
  cbn [under prefixIssues map filter reported_under path]. rewrite H. exact IH.
Qed.

Lemma filter_under_same field issues :
  filter (reported_under field) (under field issues) = under field issues.
Proof.
  induction issues as [|iss rest IH]; [reflexivity|].
  cbn [under prefixIssues map filter reported_under path].
  rewrite String.eqb_refl. f_equal. exact IH.
Qed.

Lemma filter_toppings props :
  filter (reported_under "toppings") (violations (VObject props))
  = under "toppings" (toppings_rule (get props "toppings")).
Proof.
  unfold violations. rewrite !filter_app.
  rewrite !filter_under_other by reflexivity.
  apply filter_under_same.
Qed.

Lemma toppings_rule_ill_typed v :
  ill_typed_toppings v = true ->
  toppings_rule v = toppings_type_issues v /\ toppings_type_issues v <> [].
Proof.
  destruct v; try discriminate; try (split; [reflexivity|discriminate]).
  cbn [ill_typed_toppings toppings_rule toppings_type_issues]. intro H.
  apply negb_true_iff in H. rewrite H. split; [reflexivity|].
  intro E. apply element_type_issues_all_strings in E. congruence.
Qed.

Lemma element_issue_In items k i item :
  nth_error items i = Some item -> is_string item = false ->
  In (Issue [Index (k + i)] (invalid_type_message "string" item))
     (element_type_issues k items).
Proof.
  revert k i. induction items as [|head rest IH]; intros k i Hnth Hitem.
  - destruct i; discriminate.
  - destruct i as [|i].
    + injection Hnth as ->. rewrite Nat.add_0_r.
      destruct item; try discriminate; left; reflexivity.
    + cbn [nth_error] in Hnth. rewrite Nat.add_succ_r.
      specialize (IH (S k) i Hnth Hitem).
      destruct head; try (right; exact IH). exact IH.
Qed.

(** Claim C5: when toppings is present and is not a list of strings,
    validation fails; the issues reported under toppings are exactly the
    type violations (one for a value that is not a list, otherwise one per
    element that is not a string, under the index of the element, so its
    message is prefixed [toppings.i: ]), and nothing else: the check of
    the forbidden toppings reports nothing. *)
Theorem ill_typed_toppings_reported props :
  ill_typed_toppings (get props "toppings") = true ->
  exists issues,
    safeParse PizzaSchema (VObject props) = Return (failure issues)
    /\ validatePizza (VObject props)
       = Return (NotPizza (join "; " (map render_issue issues)))
    /\ filter (reported_under "toppings") issues
       = under "toppings" (toppings_type_issues (get props "toppings"))
    /\ forall items i item,
         get props "toppings" = VArray items ->
         nth_error items i = Some item -> is_string item = false ->
         In (Issue [Key "toppings"; Index i] (invalid_type_message "string" item)) issues
         /\ render_issue
              (Issue [Key "toppings"; Index i] (invalid_type_message "string" item))
            = ("toppings." ++ index_text i ++ ": "
                 ++ invalid_type_message "string" item)%string.
Proof.
  intro H. apply toppings_rule_ill_typed in H as [Hrule Hsome].
  exists (violations (VObject props)).
  assert (Hfail : violations (VObject props) <> []).
  { intro E. apply violations_nil in E as (_ & _ & _ & E). congruence. }
  split; [|split; [|split]].
  - rewrite safeParse_object.
    destruct (violations (VObject props)); [congruence|reflexivity].
  - rewrite validatePizza_object.
    destruct (violations (VObject props)); [congruence|reflexivity].
  - rewrite filter_toppings, Hrule. reflexivity.
  - intros items i item Hitems Hnth Hitem. split; [|apply render_element_issue].
    unfold violations. rewrite Hrule, Hitems. cbn [toppings_type_issues].
    apply in_or_app; right. apply in_or_app; right. apply in_or_app; right.
    apply (in_map (fun iss => Issue (Key "toppings" :: path iss) (message iss))
             _ _ (element_issue_In items 0 i item Hnth Hitem)).
Qed.

End IllTypedToppings.

(** ** Undeclared properties *)

Section UnknownKeys.
Context {platform : Platform}.

Lemma get_declared_only props key :
  includes declared_keys key = true ->
  get (declared_only props) key = get props key.
Proof.
  intro H. induction props as [|[k v] rest IH]; [reflexivity|].
  cbn [declared_only filter fst get].
  destruct (includes declared_keys k) eqn:E.
  - cbn [get]. destruct (String.eqb k key); [reflexivity|exact IH].
  - destruct (String.eqb_spec k key) as [->|_]; [congruence|exact IH].
Qed.

Lemma has_key_declared_only props key :
  includes declared_keys key = true ->
  has_key (declared_only props) key = has_key props key.
Proof.
  intro H. induction props as [|[k v] rest IH]; [reflexivity|].
  cbn [declared_only filter fst has_key].
  destruct (includes declared_keys k) eqn:E.
  - cbn [has_key]. destruct (String.eqb k key); [reflexivity|exact IH].
  - destruct (String.eqb_spec k key) as [->|_]; [congruence|exact IH].
Qed.

Lemma entry_key props field v key w :
  In (key, w) (entry props field v) -> key = field.
Proof.
  unfold entry.
  destruct v; try destruct (has_key props field);
    cbn [In]; intro Hin; intuition congruence.
Qed.

(** Claim C10: properties other than size, crust, isDeepDish and toppings
    are ignored: the result of validation is the result on the object
    without them, so they raise no error, and an accepted pizza has
    declared properties only. *)
Theorem unknown_keys_stripped props :
  validatePizza (VObject props) = validatePizza (VObject (declared_only props))
  /\ forall pizza,
       validatePizza (VObject props) = Return (IsPizza pizza) ->
       exists fields,
         pizza = VObject fields
         /\ forall key v, In (key, v) fields -> In key declared_keys.
Proof.
  split.
  - rewrite !validatePizza_object. unfold violations, normalize, entry.
    rewrite !get_declared_only, !has_key_declared_only by reflexivity.
    reflexivity.
  - intros pizza H. rewrite validatePizza_object in H.
    destruct (violations (VObject props)); [|discriminate].
    injection H as <-. unfold normalize. eexists. split; [reflexivity|].
    intros key v Hin.
    repeat (apply in_app_or in Hin as [Hin|Hin]);
      apply entry_key in Hin; subst; cbn; auto.
Qed.

End UnknownKeys.

(** ** The command line *)

Section CommandLine.
Context {platform : Platform}.
Variable readFileSync : string -> completion string.
Variable JSON_parse : string -> completion value.
Variable Number_toString : Q -> string.

Lemma serialize_strings gap indent ts :
  serialize Number_toString gap indent (strings ts)
  = Some (wrap "[" "]" gap (indent ++ gap) indent (map quote ts)).
Proof.
  unfold strings. cbn [serialize]. do 2 f_equal.
  induction ts as [|t ts IH]; [reflexivity|].
  cbn [map]. rewrite IH. reflexivity.
Qed.

Lemma serialize_object gap indent props :
  serialize Number_toString gap indent (VObject props)
  = Some (wrap "{" "}" gap (indent ++ gap) indent
            (flat_map
               (fun kv =>
                  match serialize Number_toString gap (indent ++ gap) (snd kv) with
                  | Some text =>
                      [(quote (fst kv) ++ ":"
                          ++ (if (String.length gap =? 0)%nat then "" else " ")
                          ++ text)%string]
                  | None => []
                  end) props)).
Proof.
  cbn [serialize]. do 2 f_equal.
  induction props as [|[key item] rest IH]; [reflexivity|].
  cbn [flat_map fst snd]. rewrite IH.
  destruct (serialize Number_toString gap (indent ++ gap) item); reflexivity.
Qed.

Lemma stringify_pizza n crust deep toppings tail :
  tail = match toppings with
         | Some ts => [("toppings", strings ts)]
         | None => []
         end
  \/ (toppings = None /\ tail = [("toppings", VUndefined)]) ->
  JSON_stringify Number_toString
    (VObject ([("size", VNumber n); ("crust", VString crust);
               ("isDeepDish", VBoolean deep)] ++ tail)) 2
  = Some (pizza_text Number_toString n crust deep toppings).
Proof.
  intro H. unfold JSON_stringify. rewrite serialize_object.
  destruct H as [->|[-> ->]]; [destruct toppings as [ts|]|].
  - cbn [app flat_map fst snd]. rewrite serialize_strings.
    destruct ts; reflexivity.
  - reflexivity.
  - reflexivity.
Qed.

Lemma accepted_pizza_form input pizza :
  validatePizza input = Return (IsPizza pizza) ->
  exists n crust deep toppings tail,
    pizza = VObject ([("size", VNumber n); ("crust", VString crust);
                      ("isDeepDish", VBoolean deep)] ++ tail)
    /\ (tail = match toppings with
               | Some ts => [("toppings", strings ts)]
               | None => []
               end
        \/ (toppings = None /\ tail = [("toppings", VUndefined)])).
Proof.
  intro H.
  destruct input;
    try (rewrite validatePizza_not_object in H by discriminate; discriminate).
  rewrite validatePizza_object in H.
  destruct (violations (VObject props)) eqn:E; [|discriminate].
  injection H as <-.
  destruct (accepted_inv props E)
    as (n & crust & deep & toppings & Hsize & _ & Hcrust & _ & Hdeep & Htoppings & _).
  unfold normalize. rewrite Hsize, Hcrust, Hdeep, Htoppings.
  exists n, crust, (match deep with Some b => b | None => false end), toppings.
  eexists. split.
  - destruct deep; cbn [of_optional default_false entry app]; reflexivity.
  - destruct toppings as [ts|]; cbn [of_optional entry strings]; [left; reflexivity|].
    destruct (has_key props "toppings"); [right|left]; auto.
Qed.

(** The run, case by case. *)
Lemma run_help args :
  is_true (help args) = true \/ positionals args = [] ->
  run readFileSync JSON_parse Number_toString args
  = {| printed := {| stdout := usage; stderr := [] |}; exitCode := 0 |}.
Proof.
  intro H. unfold run, main.
  assert (E : (is_true (help args) || (List.length (positionals args) =? 0)%nat)%bool
              = true).
  { destruct H as [-> | ->]; [reflexivity|apply orb_true_r]. }
  rewrite E. reflexivity.
Qed.

Lemma run_validated args path rest content jsonData result :
  is_true (help args) = false -> positionals args = path :: rest ->
  readFileSync path = Return content -> JSON_parse content = Return jsonData ->
  validatePizza jsonData = Return result ->
  run readFileSync JSON_parse Number_toString args
  = match result with
    | IsPizza pizza =>
        {| printed := {| stdout := ["✓ Valid pizza!";
                                    shown (JSON_stringify Number_toString pizza 2)];
                         stderr := [] |};
           exitCode := 0 |}
    | NotPizza errors =>
        {| printed := {| stdout := []; stderr := ["✗ Invalid pizza:"; errors] |};
           exitCode := 1 |}
    end.
Proof.
  intros Hhelp Hpos Hread Hparse Hresult.
  unfold run, main. rewrite Hhelp, Hpos.
  cbn [List.length Nat.eqb orb nth].
  unfold seq, try_catch, call, ret. rewrite Hread, Hparse, Hresult.
  destruct result; reflexivity.
Qed.

Lemma run_read_throws args path rest e :
  is_true (help args) = false -> positionals args = path :: rest ->
  readFileSync path = Throw e ->
  run readFileSync JSON_parse Number_toString args
  = {| printed := {| stdout := []; stderr := error_report path e |}; exitCode := 1 |}.
Proof.
  intros Hhelp Hpos Hread.
  unfold run, main. rewrite Hhelp, Hpos.
  cbn [List.length Nat.eqb orb nth].
  unfold seq, try_catch, call, ret. rewrite Hread.
  destruct e as [cls code message|text]; cbn [error_report]; [|reflexivity].
  destruct (code_is code "ENOENT"); [reflexivity|].
  destruct (is_SyntaxError cls); reflexivity.
Qed.

Lemma run_parse_throws args path rest content e :
  is_true (help args) = false -> positionals args = path :: rest ->
  readFileSync path = Return content -> JSON_parse content = Throw e ->
  run readFileSync JSON_parse Number_toString args
  = {| printed := {| stdout := []; stderr := error_report path e |}; exitCode := 1 |}.
Proof.
  intros Hhelp Hpos Hread Hparse.
  unfold run, main. rewrite Hhelp, Hpos.
  cbn [List.length Nat.eqb orb nth].
  unfold seq, try_catch, call, ret. rewrite Hread, Hparse.
  destruct e as [cls code message|text]; cbn [error_report]; [|reflexivity].
  destruct (code_is code "ENOENT"); [reflexivity|].
  destruct (is_SyntaxError cls); reflexivity.
Qed.

Lemma error_report_not_empty path e : error_report path e <> [].
Proof.
  destruct e as [cls code message|text]; cbn [error_report]; [|discriminate].
  destruct (code_is code "ENOENT"); [discriminate|].
  destruct (is_SyntaxError cls); discriminate.
Qed.

(** Claim C8: when the file is read and its content parses to a value the
    validator accepts, the run prints [✓ Valid pizza!] and then the pizza
    on standard output, as a record with one member per line indented by
    two spaces, without a toppings member when the pizza has no toppings,
    prints nothing on standard error and exits with 0; when the validator
    rejects the value, the run prints [✗ Invalid pizza:] and then the
    joined error string on standard error, nothing on standard output,
    and exits with 1. *)
Theorem cli_reports_verdict args path rest content jsonData :
  is_true (help args) = false -> positionals args = path :: rest ->
  readFileSync path = Return content -> JSON_parse content = Return jsonData ->
  (forall pizza,
     validatePizza jsonData = Return (IsPizza pizza) ->
     exists fields n crust deep toppings,
       pizza = VObject fields
       /\ get fields "size" = VNumber n
       /\ get fields "crust" = VString crust
       /\ get fields "isDeepDish" = VBoolean deep
       /\ get fields "toppings" = of_optional strings toppings
       /\ run readFileSync JSON_parse Number_toString args
          = {| printed :=
                 {| stdout := ["✓ Valid pizza!";
                               pizza_text Number_toString n crust deep toppings];
                    stderr := [] |};
               exitCode := 0 |})
  /\ (forall errors,
        validatePizza jsonData = Return (NotPizza errors) ->
        run readFileSync JSON_parse Number_toString args
        = {| printed := {| stdout := []; stderr := ["✗ Invalid pizza:"; errors] |};
             exitCode := 1 |}).
Proof.
  intros Hhelp Hpos Hread Hparse. split.
  - intros pizza Hvalid.
    rewrite (run_validated args path rest content jsonData _
               Hhelp Hpos Hread Hparse Hvalid).
    destruct (accepted_pizza_form _ _ Hvalid)
      as (n & crust & deep & toppings & tail & -> & Htail).
    rewrite (stringify_pizza n crust deep toppings tail Htail).
    eexists; exists n, crust, deep, toppings.
    split; [reflexivity|].
    destruct Htail as [->|[-> ->]]; [destruct toppings|]; auto 10.
  - intros errors Hinvalid.
    apply (run_validated args path rest content jsonData _
             Hhelp Hpos Hread Hparse Hinvalid).
Qed.

(** Claim C9: on a run with a file argument and no help flag, a read that
    fails with the code ENOENT prints [Error: File "<path>" not found.],
    a content that [JSON.parse] rejects with a [SyntaxError] prints
    [Error: Invalid JSON in file "<path>".] and then the message of the
    parser, and every failure of the read or of the parse prints on
    standard error only and exits with 1.  The exit code is 0 or 1, and it
    is 0 exactly when the help was shown or the pizza was valid. *)
Theorem cli_operational_errors args :
  (forall path rest,
     is_true (help args) = false -> positionals args = path :: rest ->
     (forall cls message,
        readFileSync path = Throw (ErrorObject cls (Some "ENOENT") message) ->
        run readFileSync JSON_parse Number_toString args
        = {| printed :=
               {| stdout := [];
                  stderr := [("Error: File " ++ dquote ++ path ++ dquote
                                ++ " not found.")%string] |};
             exitCode := 1 |})
     /\ (forall content message,
           readFileSync path = Return content ->
           JSON_parse content = Throw (ErrorObject SyntaxError None message) ->
           run readFileSync JSON_parse Number_toString args
           = {| printed :=
                  {| stdout := [];
                     stderr := [("Error: Invalid JSON in file " ++ dquote ++ path
                                   ++ dquote ++ ".")%string;
                                message] |};
                exitCode := 1 |})
     /\ (forall e,
           readFileSync path = Throw e
           \/ (exists content,
                 readFileSync path = Return content /\ JSON_parse content = Throw e) ->
           exitCode (run readFileSync JSON_parse Number_toString args) = 1%Z
           /\ stdout (printed (run readFileSync JSON_parse Number_toString args)) = []
           /\ stderr (printed (run readFileSync JSON_parse Number_toString args)) <> []))
  /\ (exitCode (run readFileSync JSON_parse Number_toString args) = 0%Z
      \/ exitCode (run readFileSync JSON_parse Number_toString args) = 1%Z)
  /\ (exitCode (run readFileSync JSON_parse Number_toString args) = 0%Z
      <-> is_true (help args) = true
          \/ positionals args = []
          \/ exists path rest content jsonData pizza,
               positionals args = path :: rest
               /\ readFileSync path = Return content
               /\ JSON_parse content = Return jsonData
               /\ validatePizza jsonData = Return (IsPizza pizza)).
Proof.
  split; [|].
  - intros path rest Hhelp Hpos. split; [|split].
    + intros cls message Hread.
      apply (run_read_throws args path rest _ Hhelp Hpos Hread).
    + intros content message Hread Hparse.
      apply (run_parse_throws args path rest content _ Hhelp Hpos Hread Hparse).
    + intros e [Hread|(content & Hread & Hparse)].
      * rewrite (run_read_throws args path rest e Hhelp Hpos Hread).
        cbn [exitCode printed stdout stderr].
        auto using error_report_not_empty.
      * rewrite (run_parse_throws args path rest content e Hhelp Hpos Hread Hparse).
        cbn [exitCode printed stdout stderr].
        auto using error_report_not_empty.
  - destruct (is_true (help args)) eqn:Hhelp.
    { rewrite run_help by auto. cbn [exitCode]. split; [auto|]. split; auto. }
    destruct (positionals args) as [|path rest] eqn:Hpos.
    { rewrite run_help by auto. cbn [exitCode]. split; [auto|]. split; auto. }
    destruct (readFileSync path) as [content|e] eqn:Hread.
    2:{ rewrite (run_read_throws args path rest e Hhelp Hpos Hread).
        cbn [exitCode]. split; [auto|]. split; [discriminate|].
        intros [H|[H|(p & r & c & j & z & Hp & Hr & _)]]; try discriminate.
        injection Hp as <- <-. congruence. }
    destruct (JSON_parse content) as [jsonData|e] eqn:Hparse.
    2:{ rewrite (run_parse_throws args path rest content e Hhelp Hpos Hread Hparse).
        cbn [exitCode]. split; [auto|]. split; [discriminate|].
        intros [H|[H|(p & r & c & j & z & Hp & Hr & Hj & _)]]; try discriminate.
        injection Hp as <- <-. congruence. }
    destruct (validatePizza_returns jsonData) as [result Hresult].
    rewrite (run_validated args path rest content jsonData result
               Hhelp Hpos Hread Hparse Hresult).
    destruct result as [pizza|errors]; cbn [exitCode].
    + split; [auto|]. split; [|reflexivity].
      intros _. right; right. exists path, rest, content, jsonData, pizza. auto.
    + split; [auto|]. split; [discriminate|].
      intros [H|[H|(p & r & c & j & z & Hp & Hr & Hj & Hz)]]; try discriminate.
      injection Hp as <- <-. congruence.
Qed.

End CommandLine.

(** ** The theorems on the examples *)

Lemma valid_pizza_accepted_witness :
  @validatePizza ascii_zod4 (VObject pepperoni_bacon)
  = Return (IsPizza (VObject
      [ ("size", VNumber 12); ("crust", VString "normal");
        ("isDeepDish", VBoolean false);
        ("toppings", strings ["pepperoni"; "bacon"]) ])).
Proof.
  apply (@valid_pizza_accepted ascii_zod4 pepperoni_bacon 12 "normal" None
           (Some ["pepperoni"; "bacon"])).
  - reflexivity.
  - reflexivity.
  - reflexivity.
  - right. reflexivity.
  - reflexivity.
  - reflexivity.
  - repeat constructor.
Defined.

Lemma forbidden_topping_rejected_witness :
  @validatePizza ascii_zod4 (VObject shouting_spinach)
  = Return (NotPizza
      "toppings: the following toppings are invalid: spinach, mushroom, chicken, turkey.").
Proof.
  apply (@forbidden_topping_rejected ascii_zod4 shouting_spinach 12 "normal" None
           ["SPINACH"]).
  - reflexivity.
  - reflexivity.
  - reflexivity.
  - right. reflexivity.
  - reflexivity.
  - reflexivity.
  - constructor. right. left. reflexivity.
Defined.

(** The claim C1 as the spec states it fails on a size that is a number
    greater than zero and is not finite: where zod's number type is the
    finite numbers (zod 4), validation fails on [Infinity]. *)
Lemma infinite_size_counterexample :
  get infinite_size "size" = VNumber (Infinite true)
  /\ greater_than_zero (Infinite true)
  /\ get infinite_size "crust" = VString "normal"
  /\ get infinite_size "isDeepDish" = VUndefined
  /\ get infinite_size "toppings" = VUndefined
  /\ exists errors,
       @validatePizza ascii_zod4 (VObject infinite_size) = Return (NotPizza errors).
Proof. repeat split. eexists. reflexivity. Qed.

(** The claim C3 as the spec states it fails on an object without size: the
    error string, under zod 3 and under zod 4, is the stock message of the
    type check and does not contain [pizza size must be a positive
    number]. *)
Lemma missing_size_counterexample :
  get no_size "size" = VUndefined
  /\ @validatePizza ascii_zod3 (VObject no_size)
     = Return (NotPizza "size: Required")
  /\ @validatePizza ascii_zod4 (VObject no_size)
     = Return (NotPizza "size: Invalid input: expected number, received undefined")
  /\ contains "size: Required" "pizza size must be a positive number" = false
  /\ contains "size: Invalid input: expected number, received undefined"
       "pizza size must be a positive number" = false.
Proof. repeat split; reflexivity. Qed.

Lemma size_violation_reported_witness :
  (exists others,
     @validatePizza ascii_zod4 (VObject zero_size)
     = Return (NotPizza
         (join "; " ("size: pizza size must be a positive number" :: others))))
  /\ (exists others,
        @validatePizza ascii_zod4 (VObject no_size)
        = Return (NotPizza
            (join "; "
               ("size: Invalid input: expected number, received undefined" :: others))))
  /\ (exists others,
        @validatePizza ascii_zod4 (VObject nan_size)
        = Return (NotPizza
            (join "; "
               (("size: " ++ @invalid_type_message ascii_zod4 "number" (VNumber NaN))%string
                  :: others))))
  /\ (exists others,
        @validatePizza ascii_zod4 (VObject minus_infinity_size)
        = Return (NotPizza
            (join "; "
               (("size: "
                   ++ @invalid_type_message ascii_zod4 "number"
                        (VNumber (Infinite false)))%string
                  :: others))))
  /\ (exists others,
        @validatePizza ascii_zod3 (VObject minus_infinity_size)
        = Return (NotPizza
            (join "; " ("size: pizza size must be a positive number" :: others)))).
Proof.
  split; [|split; [|split; [|split]]].
  - apply (proj1 (@size_violation_reported ascii_zod4 zero_size) 0%Q).
    + reflexivity.
    + discriminate.
  - apply (proj1 (proj2 (@size_violation_reported ascii_zod4 no_size))).
    intros n. discriminate.
  - apply (proj1 (proj2 (proj2 (@size_violation_reported ascii_zod4 nan_size)))).
    reflexivity.
  - apply (proj1 (proj2 (proj2 (proj2
             (@size_violation_reported ascii_zod4 minus_infinity_size)))) false).
    + reflexivity.
    + reflexivity.
  - apply (proj2 (proj2 (proj2 (proj2
             (@size_violation_reported ascii_zod3 minus_infinity_size))))).
    + reflexivity.
    + reflexivity.
Defined.

Lemma errors_joined_in_field_order_witness :
  exists issues,
    issues <> []
    /\ ("size: pizza size must be a positive number; crust: " ++ crust_message
          ++ "; isDeepDish: Invalid input: expected boolean, received null"
          ++ "; toppings.0: Invalid input: expected string, received number")%string
       = join "; " (map render_issue issues)
    /\ issues
       = [ Issue [Key "size"] "pizza size must be a positive number";
           Issue [Key "crust"] crust_message;
           Issue [Key "isDeepDish"] "Invalid input: expected boolean, received null";
           Issue [Key "toppings"; Index 0]
             "Invalid input: expected string, received number" ].
Proof.
  apply (@errors_joined_in_field_order ascii_zod4 (VObject all_wrong)).
  reflexivity.
Defined.

Lemma ill_typed_toppings_reported_witness :
  ill_typed_toppings (get number_among_toppings "toppings") = true
  /\ exists issues,
       @safeParse ascii_zod4 (@PizzaSchema ascii_zod4) (VObject number_among_toppings)
       = Return (failure issues)
       /\ @validatePizza ascii_zod4 (VObject number_among_toppings)
          = Return (NotPizza (join "; " (map render_issue issues)))
       /\ filter (reported_under "toppings") issues
          = [Issue [Key "toppings"; Index 0]
               "Invalid input: expected string, received number"].
Proof.
  split; [reflexivity|].
  destruct (@ill_typed_toppings_reported ascii_zod4 number_among_toppings eq_refl)
    as (issues & Hparse & Hvalidate & Hfilter & _).
  exists issues. split; [exact Hparse|]. split; [exact Hvalidate|exact Hfilter].
Defined.

Lemma revalidation_is_identity_witness :
  @validatePizza ascii_zod4
    (VObject [ ("size", VNumber 12); ("crust", VString "normal");
               ("isDeepDish", VBoolean false);
               ("toppings", strings ["pepperoni"; "bacon"]) ])
  = Return (IsPizza
      (VObject [ ("size", VNumber 12); ("crust", VString "normal");
                 ("isDeepDish", VBoolean false);
                 ("toppings", strings ["pepperoni"; "bacon"]) ])).
Proof.
  apply (@revalidation_is_identity ascii_zod4 (VObject pepperoni_bacon)).
  reflexivity.
Defined.

Lemma unknown_keys_stripped_witness :
  @validatePizza ascii_zod4 (VObject with_extras)
  = @validatePizza ascii_zod4
      (VObject [ ("size", VNumber 12); ("crust", VString "stuffed");
                 ("isDeepDish", VBoolean true) ])
  /\ exists fields,
       VObject [ ("size", VNumber 12); ("crust", VString "stuffed");
                 ("isDeepDish", VBoolean true) ] = VObject fields
       /\ forall key v, In (key, v) fields -> In key declared_keys.
Proof.
  split.
  - apply (proj1 (@unknown_keys_stripped ascii_zod4 with_extras)).
  - apply (proj2 (@unknown_keys_stripped ascii_zod4 with_extras)).
    reflexivity.
Defined.

Lemma cli_reports_verdict_witness :
  (exists fields n crust deep toppings,
     deep_stuffed = VObject fields
     /\ get fields "size" = VNumber n
     /\ get fields "crust" = VString crust
     /\ get fields "isDeepDish" = VBoolean deep
     /\ get fields "toppings" = of_optional strings toppings
     /\ @run ascii_zod4 example_readFileSync example_JSON_parse example_Number_toString
          (file_argument "valid-pizza.json")
        = {| printed :=
               {| stdout := ["✓ Valid pizza!";
                             pizza_text example_Number_toString n crust deep toppings];
                  stderr := [] |};
             exitCode := 0 |})
  /\ @run ascii_zod4 example_readFileSync example_JSON_parse example_Number_toString
       (file_argument "invalid-pizza.json")
     = {| printed :=
            {| stdout := [];
               stderr := ["✗ Invalid pizza:";
                          "toppings: the following toppings are invalid: spinach, mushroom, chicken, turkey."] |};
          exitCode := 1 |}.
Proof.
  split.
  - apply (proj1 (@cli_reports_verdict ascii_zod4 example_readFileSync
                    example_JSON_parse example_Number_toString
                    (file_argument "valid-pizza.json") "valid-pizza.json" []
                    (text_of deep_stuffed) deep_stuffed
                    eq_refl eq_refl eq_refl eq_refl) deep_stuffed).
    reflexivity.
  - apply (proj2 (@cli_reports_verdict ascii_zod4 example_readFileSync
                    example_JSON_parse example_Number_toString
                    (file_argument "invalid-pizza.json") "invalid-pizza.json" []
                    (text_of spinach_mushroom) spinach_mushroom
                    eq_refl eq_refl eq_refl eq_refl)).
    reflexivity.
Defined.

Lemma cli_operational_errors_witness :
  @run ascii_zod4 example_readFileSync example_JSON_parse example_Number_toString
    (file_argument "missing.json")
  = {| printed :=
         {| stdout := [];
            stderr := [("Error: File " ++ dquote ++ "missing.json" ++ dquote
                          ++ " not found.")%string] |};
       exitCode := 1 |}
  /\ @run ascii_zod4 example_readFileSync example_JSON_parse example_Number_toString
       (file_argument "broken.json")
     = {| printed :=
            {| stdout := [];
               stderr := [("Error: Invalid JSON in file " ++ dquote ++ "broken.json"
                             ++ dquote ++ ".")%string;
                          "Unexpected end of JSON input"] |};
          exitCode := 1 |}
  /\ exitCode (@run ascii_zod4 example_readFileSync example_JSON_parse
                 example_Number_toString (file_argument "broken.json")) = 1%Z
  /\ exitCode (@run ascii_zod4 example_readFileSync example_JSON_parse
                 example_Number_toString (file_argument "valid-pizza.json")) = 0%Z.
Proof.
  split; [|split; [|split]].
  - destruct (@cli_operational_errors ascii_zod4 example_readFileSync
                example_JSON_parse example_Number_toString
                (file_argument "missing.json")) as [H _].
    destruct (H "missing.json" [] eq_refl eq_refl) as (Hmissing & _ & _).
    exact (Hmissing PlainError _ eq_refl).
  - destruct (@cli_operational_errors ascii_zod4 example_readFileSync
                example_JSON_parse example_Number_toString
                (file_argument "broken.json")) as [H _].
    destruct (H "broken.json" [] eq_refl eq_refl) as (_ & Hbroken & _).
    exact (Hbroken "{" _ eq_refl eq_refl).
  - destruct (@cli_operational_errors ascii_zod4 example_readFileSync
                example_JSON_parse example_Number_toString
                (file_argument "broken.json")) as [H _].
    destruct (H "broken.json" [] eq_refl eq_refl) as (_ & _ & Hany).
    apply (Hany (ErrorObject SyntaxError None "Unexpected end of JSON input")).
    right. exists "{". split; reflexivity.
  - destruct (@cli_operational_errors ascii_zod4 example_readFileSync
                example_JSON_parse example_Number_toString
                (file_argument "valid-pizza.json")) as (_ & _ & Hzero).
    apply Hzero. right; right.
    exists "valid-pizza.json", [], (text_of deep_stuffed), deep_stuffed, deep_stuffed.
    repeat split; reflexivity.
Defined.

(** ** The scenarios of the specification, evaluated *)

Example stuffed_crust_accepted :
  @validatePizza ascii_zod4
    (VObject [("size", VNumber 16); ("crust", VString "stuffed")])
  = Return (IsPizza (VObject [ ("size", VNumber 16); ("crust", VString "stuffed");
                               ("isDeepDish", VBoolean false) ])).
Proof. reflexivity. Qed.

Example zero_and_negative_size_rejected :
  @validatePizza ascii_zod4 (VObject zero_size)
  = Return (NotPizza "size: pizza size must be a positive number")
  /\ @validatePizza ascii_zod4
       (VObject [("size", VNumber (-5)); ("crust", VString "normal")])
     = Return (NotPizza "size: pizza size must be a positive number").
Proof. split; reflexivity. Qed.

Example thin_crust_rejected :
  @validatePizza ascii_zod3
    (VObject [("size", VNumber 12); ("crust", VString "thin")])
  = Return (NotPizza ("crust: " ++ crust_message)%string).
Proof. reflexivity. Qed.

Example size_as_string_rejected :
  @validatePizza ascii_zod3
    (VObject [("size", VString "12"); ("crust", VString "normal")])
  = Return (NotPizza "size: Expected number, received string")
  /\ @validatePizza ascii_zod4
       (VObject [("size", VString "12"); ("crust", VString "normal")])
     = Return (NotPizza "size: Invalid input: expected number, received string").
Proof. split; reflexivity. Qed.

Example null_rejected :
  @validatePizza ascii_zod3 VNull
  = Return (NotPizza "Expected object, received null")
  /\ @validatePizza ascii_zod4 VNull
     = Return (NotPizza "Invalid input: expected object, received null").
Proof. split; reflexivity. Qed.

Example valid_file_printed :
  @run ascii_zod4 example_readFileSync example_JSON_parse example_Number_toString
    (file_argument "valid-pizza.json")
  = {| printed :=
         {| stdout :=
              [ "✓ Valid pizza!";
                String.concat newline
                  [ "{";
                    "  " ++ quote "size" ++ ": 14,";
                    "  " ++ quote "crust" ++ ": " ++ quote "stuffed" ++ ",";
                    "  " ++ quote "isDeepDish" ++ ": true,";
                    "  " ++ quote "toppings" ++ ": [";
                    "    " ++ quote "pepperoni" ++ ",";
                    "    " ++ quote "bacon";
                    "  ]";
                    "}" ]%string ];
            stderr := [] |};
       exitCode := 0 |}.
Proof. reflexivity. Qed.

Example no_argument_shows_usage :
  @run ascii_zod4 example_readFileSync example_JSON_parse example_Number_toString
    {| help := None; positionals := [] |}
  = {| printed := {| stdout := usage; stderr := [] |}; exitCode := 0 |}.
Proof. reflexivity. Qed.

(** * Further properties of the validator *)

Section ValidatorProperties.
Context {platform : Platform}.


(** Only valid pizzas are accepted: when validation succeeds, the input is
    an object whose size is a number greater than zero (a finite one where
    zod's number type is the finite numbers), whose crust is one of the two
    names, whose isDeepDish is absent or a boolean and whose toppings is
    absent or a list of strings none of which is forbidden, and the pizza
    returned has that size, that crust, a boolean isDeepDish and those
    toppings. *)
Theorem accepted_pizza_is_valid input pizza :
  validatePizza input = Return (IsPizza pizza) ->
  exists props fields n crust deep toppings,
    input = VObject props /\ pizza = VObject fields
    /\ get props "size" = VNumber n /\ get fields "size" = VNumber n
    /\ greater_than_zero n
    /\ (number_allows_infinity = false -> exists q : Q, n = q)
    /\ get props "crust" = VString crust /\ get fields "crust" = VString crust
    /\ (crust = "stuffed" \/ crust = "normal")
    /\ get props "isDeepDish" = of_optional VBoolean deep
    /\ get fields "isDeepDish"
       = VBoolean match deep with Some b => b | None => false end
    /\ get props "toppings" = of_optional strings toppings
    /\ get fields "toppings" = of_optional strings toppings
    /\ match toppings with
       | Some ts => Forall (fun t => forbidden t = false) ts
       | None => True
       end.
Proof.
  intro H.
  destruct input;
    try (rewrite validatePizza_not_object in H by discriminate; discriminate).
  rewrite validatePizza_object in H.
  destruct (violations (VObject props)) eqn:E; [|discriminate].
  injection H as <-.
  destruct (accepted_inv props E)
    as (n & crust & deep & toppings & Hsize & Hn & Hcrust & Hc & Hdeep & Htoppings & Hts).
  destruct (valid_fields props n crust deep toppings) as [_ ->]; try assumption.
  destruct Hn as [Hnumber Hpositive].
  assert (Hfinite : number_allows_infinity = false -> exists q : Q, n = q).
  { intro Hflag. destruct n as [q|plus|]; cbn [is_number] in Hnumber.
    - exists q. reflexivity.
    - congruence.
    - discriminate. }
  exists props. eexists. exists n, crust, deep, toppings.
  split; [reflexivity|]. split; [reflexivity|].
  destruct toppings as [ts|]; [|destruct (has_key props "toppings")];
    repeat (split; [first [assumption|reflexivity]|]); assumption.
Qed.






Lemma element_type_issues_sound items k iss :
  In iss (element_type_issues k items) ->
  exists i item,
    path iss = [Index (k + i)] /\ nth_error items i = Some item
    /\ is_string item = false.
Proof.
  revert k. induction items as [|head rest IH]; intros k H; [contradiction|].
  assert (Hrest : In iss (element_type_issues (S k) rest) ->
                  exists i item,
                    path iss = [Index (k + i)] /\ nth_error (head :: rest) i = Some item
                    /\ is_string item = false).
  { intro Hin. destruct (IH (S k) Hin) as (i & item & Hpath & Hnth & Hitem).
    exists (S i), item. rewrite Nat.add_succ_r. auto. }
  destruct head; cbn [element_type_issues] in H; try (exact (Hrest H));
    destruct H as [<-|H]; try (exact (Hrest H));
    eexists 0, _; rewrite Nat.add_0_r; repeat split; reflexivity.
Qed.

(** The issues [PizzaSchema.safeParse] reports on an object point into the
    object: each is located at one of the four declared fields, or at an
    index of toppings, and then toppings is a list which holds, at that
    index, an element that is not a string. *)
Theorem issues_point_into_the_input props issues :
  safeParse PizzaSchema (VObject props) = Return (failure issues) ->
  Forall (fun iss =>
            In (path iss)
               [[Key "size"]; [Key "crust"]; [Key "isDeepDish"]; [Key "toppings"]]
            \/ exists items i item,
                 get props "toppings" = VArray items
                 /\ path iss = [Key "toppings"; Index i]
                 /\ nth_error items i = Some item
                 /\ is_string item = false) issues.
Proof.
  intro H. rewrite safeParse_object in H.
  destruct (violations (VObject props)) as [|first more] eqn:E; [discriminate|].
  injection H as <-. rewrite <- E. clear E first more.
  unfold violations, under, prefixIssues.
  repeat (apply Forall_app; split); apply Forall_map, Forall_forall; intros iss Hin;
    cbn [path].
  - left. left. f_equal.
    destruct (get props "size"); cbn [size_rule] in Hin;
      try destruct (is_number n); try destruct (number_le n 0); cbn in Hin;
      intuition (subst; reflexivity).
  - left. right. left. f_equal.
    destruct (get props "crust"); cbn in Hin;
      try destruct (String.eqb s "stuffed" || String.eqb s "normal")%bool; cbn in Hin;
      intuition (subst; reflexivity).
  - left. right. right. left. f_equal.
    destruct (get props "isDeepDish"); cbn in Hin; intuition (subst; reflexivity).
  - destruct (get props "toppings") eqn:Et; cbn [toppings_rule toppings_type_issues] in Hin;
      try (left; do 3 right; left; f_equal;
           cbn in Hin; intuition (subst; reflexivity)).
    destruct (all_strings items).
    + left; do 3 right; left; f_equal.
      destruct (has_forbidden items); cbn in Hin; intuition (subst; reflexivity).
    + right. destruct (element_type_issues_sound items 0 iss Hin)
        as (i & item & Hpath & Hnth & Hitem).
      exists items, i, item. rewrite Hpath. auto.
Qed.

Lemma get_Permutation props props' key :
  NoDup (map fst props) -> Permutation props props' ->
  get props key = get props' key.
Proof.
  intros Hnodup Hperm. induction Hperm as [|[k v] l l' Hperm IH
                                            |[k1 v1] [k2 v2] l|l l' l'' H1 IH1 H2 IH2].
  - reflexivity.
  - cbn [get]. inversion Hnodup; subst. rewrite IH by assumption. reflexivity.
  - cbn [get]. cbn [map fst] in Hnodup. inversion Hnodup as [|? ? Hnotin _]; subst.
    destruct (String.eqb_spec k1 key) as [->|]; [|reflexivity].
    destruct (String.eqb_spec k2 key) as [->|]; [|reflexivity].
    exfalso. apply Hnotin. left. reflexivity.
  - rewrite IH1 by assumption. apply IH2.
    apply (Permutation_NoDup (Permutation_map fst H1) Hnodup).
Qed.

Lemma has_key_Permutation props props' key :
  Permutation props props' -> has_key props key = has_key props' key.
Proof.
  intro Hperm. induction Hperm as [|[k v] l l' Hperm IH
                                   |[k1 v1] [k2 v2] l|l l' l'' H1 IH1 H2 IH2].
  - reflexivity.
  - cbn [has_key]. rewrite IH. reflexivity.
  - cbn [has_key]. destruct (String.eqb k1 key), (String.eqb k2 key); reflexivity.
  - congruence.
Qed.

(** The order of the properties of the input is irrelevant: two objects
    with the same properties, each key once, in any order, get the same
    result, and the accepted pizza has its fields in the order of the
    schema. *)
Theorem property_order_is_irrelevant props props' :
  NoDup (map fst props) -> Permutation props props' ->
  validatePizza (VObject props) = validatePizza (VObject props').
Proof.
  intros Hnodup Hperm. rewrite !validatePizza_object.
  unfold violations, normalize, entry.
  rewrite !(get_Permutation props props' _ Hnodup Hperm).
  rewrite !(has_key_Permutation props props' _ Hperm).
  reflexivity.
Qed.

Lemma earlier_parse_toppings v :
  parse (z_refine (z_optional (z_array z_string))
           EarlierValidation.toppings_check toppings_message) v
  = parse (z_refine (z_optional (z_array z_string)) toppings_check toppings_message) v.
Proof.
  destruct v; try reflexivity.
  pose proof (parse_elements items) as Helements.
  cbn [parse] in *. rewrite Helements. cbn [bind].
  rewrite mergeArray_elements.
  destruct (all_strings items); reflexivity.
Qed.

Lemma earlier_parse_PizzaSchema input :
  parse EarlierValidation.PizzaSchema input = parse PizzaSchema input.
Proof.
  destruct input; try reflexivity.
  rewrite parse_PizzaSchema. unfold EarlierValidation.PizzaSchema.
  apply parse_object_fields.
  repeat constructor; cbn [fst snd].
  - apply parse_size.
  - apply parse_crust.
  - apply parse_isDeepDish.
  - rewrite earlier_parse_toppings. apply parse_toppings.
Qed.

(** The two revisions of the module agree on every input: the earlier
    [validatePizza] returns [success: true] with the pizza as [data] and no
    [error] exactly when the current one returns the pizza, and
    [success: false] with the same error string and no [data] otherwise.
    The guard [!toppings] of the earlier refinement and the guard
    [toppings === undefined] of the current one never tell them apart. *)
Theorem revisions_agree input :
  EarlierValidation.validatePizza input
  = (result <- validatePizza input ;;
     Return match result with
            | IsPizza pizza =>
                {| EarlierValidation.success := true;
                   EarlierValidation.data := Some pizza;
                   EarlierValidation.error := None |}
            | NotPizza errors =>
                {| EarlierValidation.success := false;
                   EarlierValidation.data := None;
                   EarlierValidation.error := Some errors |}
            end).
Proof.
  unfold EarlierValidation.validatePizza, validatePizza, safeParse.
  rewrite earlier_parse_PizzaSchema.
  destruct (parse PizzaSchema input) as [[issues|[|iss issues] pizza]|e]; reflexivity.
Qed.

End ValidatorProperties.

(** * Further properties of the command line *)

Section CommandLineProperties.
Context {platform : Platform}.
Variable readFileSync : string -> completion string.
Variable JSON_parse : string -> completion value.
Variable Number_toString : Q -> string.

(** The help comes first: with the help flag, a file argument or not, or
    with no positional argument, the run prints the four lines of the usage
    on standard output, nothing on standard error, and exits with 0,
    whatever the file system holds: no file is read. *)
Theorem help_shown_without_reading args :
  is_true (help args) = true \/ positionals args = [] ->
  run readFileSync JSON_parse Number_toString args
  = {| printed :=
         {| stdout :=
              [ "usage: pizza-validator <json-file>";
                "validates a JSON file to check if it contains a valid pizza.";
                (newline ++ "options:")%string;
                "  -h, --help    show this help message" ];
            stderr := [] |};
       exitCode := 0 |}.
Proof.
  intro H. rewrite run_help by assumption. reflexivity.
Qed.

(** The other branches of [catch]: an [Error] whose code is not ENOENT and
    which is not a [SyntaxError] (a permission failure, a directory) prints
    [Error reading file "<path>":] and its message; a thrown value that is
    not an [Error] prints [Unknown error: ] and its text; and the cause is
    read off the error alone, so a [SyntaxError] is reported as invalid
    JSON also when the read raised it.  All exit with 1. *)
Theorem other_failures_reported args path rest e :
  is_true (help args) = false -> positionals args = path :: rest ->
  readFileSync path = Throw e
  \/ (exists content,
        readFileSync path = Return content /\ JSON_parse content = Throw e) ->
  (forall cls code message,
     e = ErrorObject cls code message ->
     code <> Some "ENOENT" -> cls <> SyntaxError ->
     run readFileSync JSON_parse Number_toString args
     = {| printed :=
            {| stdout := [];
               stderr := [("Error reading file " ++ dquote ++ path ++ dquote ++ ":")%string;
                          message] |};
          exitCode := 1 |})
  /\ (forall text,
        e = NonError text ->
        run readFileSync JSON_parse Number_toString args
        = {| printed :=
               {| stdout := []; stderr := [("Unknown error: " ++ text)%string] |};
             exitCode := 1 |})
  /\ (forall code message,
        e = ErrorObject SyntaxError code message ->
        code <> Some "ENOENT" ->
        run readFileSync JSON_parse Number_toString args
        = {| printed :=
               {| stdout := [];
                  stderr := [("Error: Invalid JSON in file " ++ dquote ++ path
                                ++ dquote ++ ".")%string;
                             message] |};
             exitCode := 1 |}).
Proof.
  intros Hhelp Hpos Hthrow.
  assert (Hrun : run readFileSync JSON_parse Number_toString args
                 = {| printed := {| stdout := []; stderr := error_report path e |};
                      exitCode := 1 |}).
  { destruct Hthrow as [Hread|(content & Hread & Hparse)].
    - apply (run_read_throws _ _ _ args path rest e Hhelp Hpos Hread).
    - apply (run_parse_throws _ _ _ args path rest content e Hhelp Hpos Hread Hparse). }
  assert (Hcode : forall code, code <> Some "ENOENT" -> code_is code "ENOENT" = false).
  { intros [c|] Hc; [|reflexivity]. cbn [code_is].
    destruct (String.eqb_spec c "ENOENT"); [congruence|reflexivity]. }
  rewrite Hrun. split; [|split].
  - intros cls code message -> Hc Hcls. cbn [error_report].
    rewrite (Hcode code Hc). destruct cls; [reflexivity|congruence|reflexivity].
  - intros text ->. reflexivity.
  - intros code message -> Hc. cbn [error_report].
    rewrite (Hcode code Hc). reflexivity.
Qed.

(** Only the first positional argument is used: further arguments change
    nothing, no second file is read. *)
Theorem only_first_argument_used args :
  run readFileSync JSON_parse Number_toString args
  = run readFileSync JSON_parse Number_toString
      {| help := help args; positionals := firstn 1 (positionals args) |}.
Proof.
  destruct args as [flag [|path rest]]; reflexivity.
Qed.

(** A run writes to one stream only, and the stream tells the exit code:
    either it prints on standard output, nothing on standard error, and
    exits with 0, or it prints on standard error, nothing on standard
    output, and exits with 1. *)
Theorem one_stream_per_run args :
  (exitCode (run readFileSync JSON_parse Number_toString args) = 0%Z
   /\ stdout (printed (run readFileSync JSON_parse Number_toString args)) <> []
   /\ stderr (printed (run readFileSync JSON_parse Number_toString args)) = [])
  \/ (exitCode (run readFileSync JSON_parse Number_toString args) = 1%Z
      /\ stdout (printed (run readFileSync JSON_parse Number_toString args)) = []
      /\ stderr (printed (run readFileSync JSON_parse Number_toString args)) <> []).
Proof.
  destruct (is_true (help args)) eqn:Hhelp.
  { rewrite run_help by auto. left. repeat split; discriminate. }
  destruct (positionals args) as [|path rest] eqn:Hpos.
  { rewrite run_help by auto. left. repeat split; discriminate. }
  destruct (readFileSync path) as [content|e] eqn:Hread.
  2:{ rewrite (run_read_throws _ _ _ args path rest e Hhelp Hpos Hread).
      right. cbn [exitCode printed stdout stderr].
      auto using error_report_not_empty. }
  destruct (JSON_parse content) as [jsonData|e] eqn:Hparse.
  2:{ rewrite (run_parse_throws _ _ _ args path rest content e Hhelp Hpos Hread Hparse).
      right. cbn [exitCode printed stdout stderr].
      auto using error_report_not_empty. }
  destruct (validatePizza_returns jsonData) as [result Hresult].
  rewrite (run_validated _ _ _ args path rest content jsonData result
             Hhelp Hpos Hread Hparse Hresult).
  destruct result as [pizza|errors]; [left|right];
    cbn [exitCode printed stdout stderr]; repeat split; discriminate.
Qed.

(** A document that is valid JSON but not an object ([null], a number, a
    string, an array) is an invalid pizza, not a JSON error: the run prints
    [✗ Invalid pizza:] and the one message of the type check, without a
    field path, on standard error, and exits with 1. *)
Theorem non_object_document_is_invalid args path rest content jsonData :
  is_true (help args) = false -> positionals args = path :: rest ->
  readFileSync path = Return content -> JSON_parse content = Return jsonData ->
  (forall props, jsonData <> VObject props) ->
  run readFileSync JSON_parse Number_toString args
  = {| printed :=
         {| stdout := [];
            stderr := ["✗ Invalid pizza:"; invalid_type_message "object" jsonData] |};
       exitCode := 1 |}.
Proof.
  intros Hhelp Hpos Hread Hparse Hshape.
  apply (run_validated _ _ _ args path rest content jsonData _
           Hhelp Hpos Hread Hparse (validatePizza_not_object jsonData Hshape)).
Qed.

End CommandLineProperties.

(** ** The further properties on the examples *)

Lemma accepted_pizza_is_valid_witness :
  exists props fields n crust deep toppings,
    VObject pepperoni_bacon = VObject props
    /\ VObject [ ("size", VNumber 12); ("crust", VString "normal");
                 ("isDeepDish", VBoolean false);
                 ("toppings", strings ["pepperoni"; "bacon"]) ] = VObject fields
    /\ get props "size" = VNumber n /\ get fields "size" = VNumber n
    /\ greater_than_zero n
    /\ (@number_allows_infinity ascii_zod4 = false -> exists q : Q, n = q)
    /\ get props "crust" = VString crust /\ get fields "crust" = VString crust
    /\ (crust = "stuffed" \/ crust = "normal")
    /\ get props "isDeepDish" = of_optional VBoolean deep
    /\ get fields "isDeepDish"
       = VBoolean match deep with Some b => b | None => false end
    /\ get props "toppings" = of_optional strings toppings
    /\ get fields "toppings" = of_optional strings toppings
    /\ match toppings with
       | Some ts => Forall (fun t => @forbidden ascii_zod4 t = false) ts
       | None => True
       end.
Proof.
  apply (@accepted_pizza_is_valid ascii_zod4 (VObject pepperoni_bacon)).
  reflexivity.
Defined.



Lemma issues_point_into_the_input_witness :
  Forall (fun iss =>
            In (path iss)
               [[Key "size"]; [Key "crust"]; [Key "isDeepDish"]; [Key "toppings"]]
            \/ exists items i item,
                 get all_wrong "toppings" = VArray items
                 /\ path iss = [Key "toppings"; Index i]
                 /\ nth_error items i = Some item
                 /\ is_string item = false)
    [ Issue [Key "size"] "pizza size must be a positive number";
      Issue [Key "crust"] crust_message;
      Issue [Key "isDeepDish"] "Invalid input: expected boolean, received null";
      Issue [Key "toppings"; Index 0]
        "Invalid input: expected string, received number" ].
Proof.
  apply (@issues_point_into_the_input ascii_zod4 all_wrong).
  reflexivity.
Defined.

Lemma property_order_is_irrelevant_witness :
  @validatePizza ascii_zod4 (VObject pepperoni_bacon)
  = @validatePizza ascii_zod4 (VObject toppings_first).
Proof.
  apply (@property_order_is_irrelevant ascii_zod4 pepperoni_bacon toppings_first).
  - repeat constructor; cbn [In]; intuition discriminate.
  - unfold pepperoni_bacon, toppings_first.
    eapply perm_trans; [apply perm_skip, perm_swap|].
    eapply perm_trans; [apply perm_swap|].
    apply perm_skip, perm_swap.
Defined.

Lemma help_shown_without_reading_witness :
  @run ascii_zod4 example_readFileSync example_JSON_parse example_Number_toString
    help_and_file
  = {| printed :=
         {| stdout :=
              [ "usage: pizza-validator <json-file>";
                "validates a JSON file to check if it contains a valid pizza.";
                (newline ++ "options:")%string;
                "  -h, --help    show this help message" ];
            stderr := [] |};
       exitCode := 0 |}.
Proof.
  apply (@help_shown_without_reading ascii_zod4 example_readFileSync
           example_JSON_parse example_Number_toString help_and_file).
  left. reflexivity.
Defined.

Lemma other_failures_reported_witness :
  @run ascii_zod4 locked_readFileSync example_JSON_parse example_Number_toString
    (file_argument "locked.json")
  = {| printed :=
         {| stdout := [];
            stderr := [("Error reading file " ++ dquote ++ "locked.json" ++ dquote
                          ++ ":")%string;
                       "EACCES: permission denied, open 'locked.json'"] |};
       exitCode := 1 |}
  /\ @run ascii_zod4 example_readFileSync throwing_JSON_parse example_Number_toString
       (file_argument "broken.json")
     = {| printed := {| stdout := []; stderr := ["Unknown error: boom"] |};
          exitCode := 1 |}
  /\ @run ascii_zod4 example_readFileSync example_JSON_parse example_Number_toString
       (file_argument "broken.json")
     = {| printed :=
            {| stdout := [];
               stderr := [("Error: Invalid JSON in file " ++ dquote ++ "broken.json"
                             ++ dquote ++ ".")%string;
                          "Unexpected end of JSON input"] |};
          exitCode := 1 |}.
Proof.
  split; [|split].
  - refine (proj1 (@other_failures_reported ascii_zod4 locked_readFileSync
                     example_JSON_parse example_Number_toString
                     (file_argument "locked.json") "locked.json" [] _
                     eq_refl eq_refl (or_introl eq_refl))
              PlainError (Some "EACCES") _ eq_refl _ _); discriminate.
  - refine (proj1 (proj2 (@other_failures_reported ascii_zod4 example_readFileSync
                            throwing_JSON_parse example_Number_toString
                            (file_argument "broken.json") "broken.json" [] _
                            eq_refl eq_refl
                            (or_intror (ex_intro _ "{" (conj eq_refl eq_refl)))))
              "boom" eq_refl).
  - refine (proj2 (proj2 (@other_failures_reported ascii_zod4 example_readFileSync
                            example_JSON_parse example_Number_toString
                            (file_argument "broken.json") "broken.json" [] _
                            eq_refl eq_refl
                            (or_intror (ex_intro _ "{" (conj eq_refl eq_refl)))))
              None _ eq_refl _); discriminate.
Defined.

Lemma non_object_document_is_invalid_witness :
  @run ascii_zod4 null_readFileSync null_JSON_parse example_Number_toString
    (file_argument "null.json")
  = {| printed :=
         {| stdout := [];
            stderr := ["✗ Invalid pizza:";
                       "Invalid input: expected object, received null"] |};
       exitCode := 1 |}.
Proof.
  apply (@non_object_document_is_invalid ascii_zod4 null_readFileSync
           null_JSON_parse example_Number_toString
           (file_argument "null.json") "null.json" [] "null" VNull
           eq_refl eq_refl eq_refl eq_refl).
  intros props. discriminate.
Defined.

(** The two guards differ on [null], which the parser never hands to the
    refinement. *)
Example guards_differ_on_null :
  @EarlierValidation.toppings_check ascii_zod4 VNull = Return true
  /\ @toppings_check ascii_zod4 VNull
     = Throw (ErrorObject TypeError None "toppings.some is not a function").
Proof. split; reflexivity. Qed.
